(** * The portfolio catalog backend (backend/server.py)

    A shallow embedding of the request handlers of [server.py]: the record
    shapes [StatusCheck], [StatusCheckCreate], [Project], [ProjectCreate],
    their conversion to and from documents, the two collections of the
    document store, and one function per route.

    Python values are the type [value]; a Python dict (a keyword-argument
    pack, a document of the store, a JSON object) is a [gmap string value].
    A handler is a function of the world (the two collections and the
    counters of the identifier generator, the clock and the store's document
    ids) that returns a value or raises. *)

From stdpp Require Import gmap strings list fin_maps pretty sorting.

Set Warnings "-register-all".
Local Open Scope string_scope.
Local Open Scope list_scope.
Local Open Scope stdpp_scope.

(** ** Python values *)

(** What a JSON body parses to, together with the two kinds of value that
    only the server and the store produce: [datetime] (microseconds since the
    epoch) and the store's [ObjectId]. JSON numbers are kept as integers. *)
Inductive value : Type :=
| VNone
| VBool (b : bool)
| VInt (n : Z)
| VStr (s : string)
| VList (l : list value)
| VDict (d : gmap string value)
| VDatetime (t : Z)
| VObjectId (n : nat).

Abbreviation dict := (gmap string value).

(** ** Field types

    How the model classes read a field of the annotated type: [str],
    [bool], [datetime], [List[str]] and [Optional[...]]. A [str] field
    accepts text and nothing else. A [bool] field also reads the numbers 0
    and 1 and, whatever their case, the texts that pydantic lists for the
    two truth values. A [datetime] field takes a datetime as it is; what it
    makes of a number or of a text (seconds since the epoch, an ISO date) is
    the library's parser, a parameter of the model. *)

Definition as_str (v : value) : option string :=
  match v with VStr s => Some s | _ => None end.

Definition lower_ascii (c : Ascii.ascii) : Ascii.ascii :=
  let n := Ascii.nat_of_ascii c in
  if (65 <=? n)%nat && (n <=? 90)%nat then Ascii.ascii_of_nat (n + 32) else c.

(** [s.lower()], on the letters of ASCII. *)
Fixpoint lower (s : string) : string :=
  match s with
  | EmptyString => EmptyString
  | String c rest => String (lower_ascii c) (lower rest)
  end.

Definition bool_of_text (s : string) : option bool :=
  if bool_decide (lower s ∈ ["1"; "on"; "t"; "true"; "y"; "yes"]) then Some true
  else if bool_decide (lower s ∈ ["0"; "off"; "f"; "false"; "n"; "no"])
       then Some false
       else None.

Definition as_bool (v : value) : option bool :=
  match v with
  | VBool b => Some b
  | VInt 0 => Some false
  | VInt 1 => Some true
  | VStr s => bool_of_text s
  | _ => None
  end.

Definition as_datetime (datetime_of : value → option Z) (v : value) : option Z :=
  match v with VDatetime t => Some t | _ => datetime_of v end.

Definition as_list_str (v : value) : option (list string) :=
  match v with VList l => mapM as_str l | _ => None end.

Definition as_optional {A} (f : value → option A) (v : value) : option (option A) :=
  match v with VNone => Some None | _ => Some <$> f v end.

(** A field without a default must be present; a field with a default takes
    it when the key is absent. Keys that no field names are never looked at. *)
Definition required {A} (f : value → option A) (k : string) (kw : dict) : option A :=
  kw !! k ≫= f.

Definition defaulted {A} (f : value → option A) (dflt : A) (k : string) (kw : dict)
  : option A :=
  match kw !! k with
  | Some v => f v
  | None => Some dflt
  end.

Definition of_optional_str (o : option string) : value :=
  match o with Some s => VStr s | None => VNone end.

Definition of_list_str (l : list string) : value := VList (VStr <$> l).

(** ** The model classes *)

Module StatusCheckCreate.

Record t := mk { client_name : string }.

(** FastAPI reads the request body into the class. *)
Definition validate (body : value) : option t :=
  match body with
  | VDict kw =>
      client_name ← required as_str "client_name" kw;
      Some (mk client_name)
  | _ => None
  end.

(** [input.dict()] *)
Definition dict_of (x : t) : dict :=
  {[ "client_name" := VStr (client_name x) ]}.

End StatusCheckCreate.

Module StatusCheck.

Record t := mk {
  id : string;
  client_name : string;
  timestamp : Z
}.

(** [status_obj.dict()] *)
Definition dict_of (x : t) : dict :=
  <[ "id" := VStr (id x) ]>
  (<[ "client_name" := VStr (client_name x) ]>
  (<[ "timestamp" := VDatetime (timestamp x) ]> ∅)).

End StatusCheck.

Module ProjectCreate.

Record t := mk {
  title : string;
  description : string;
  tech_stack : list string;
  image_url : string;
  demo_url : option string;
  github_url : option string;
  category : string;
  featured : bool
}.

(** The keys of the create shape. *)
Definition fields : list string :=
  [ "title"; "description"; "tech_stack"; "image_url";
    "demo_url"; "github_url"; "category"; "featured" ].

(** FastAPI reads the request body into the class. *)
Definition validate (body : value) : option t :=
  match body with
  | VDict kw =>
      title ← required as_str "title" kw;
      description ← required as_str "description" kw;
      tech_stack ← required as_list_str "tech_stack" kw;
      image_url ← required as_str "image_url" kw;
      demo_url ← defaulted (as_optional as_str) None "demo_url" kw;
      github_url ← defaulted (as_optional as_str) None "github_url" kw;
      category ← required as_str "category" kw;
      featured ← defaulted as_bool false "featured" kw;
      Some (mk title description tech_stack image_url demo_url github_url
               category featured)
  | _ => None
  end.

(** [project.dict()] *)
Definition dict_of (x : t) : dict :=
  <[ "title" := VStr (title x) ]>
  (<[ "description" := VStr (description x) ]>
  (<[ "tech_stack" := of_list_str (tech_stack x) ]>
  (<[ "image_url" := VStr (image_url x) ]>
  (<[ "demo_url" := of_optional_str (demo_url x) ]>
  (<[ "github_url" := of_optional_str (github_url x) ]>
  (<[ "category" := VStr (category x) ]>
  (<[ "featured" := VBool (featured x) ]> ∅))))))).

End ProjectCreate.

Module Project.

Record t := mk {
  id : string;
  title : string;
  description : string;
  tech_stack : list string;
  image_url : string;
  demo_url : option string;
  github_url : option string;
  category : string;
  created_date : Z;
  featured : bool
}.

(** [project_obj.dict()]: every field of the class is a key, also a field
    that holds [None]. *)
Definition dict_of (x : t) : dict :=
  <[ "id" := VStr (id x) ]>
  (<[ "title" := VStr (title x) ]>
  (<[ "description" := VStr (description x) ]>
  (<[ "tech_stack" := of_list_str (tech_stack x) ]>
  (<[ "image_url" := VStr (image_url x) ]>
  (<[ "demo_url" := of_optional_str (demo_url x) ]>
  (<[ "github_url" := of_optional_str (github_url x) ]>
  (<[ "category" := VStr (category x) ]>
  (<[ "created_date" := VDatetime (created_date x) ]>
  (<[ "featured" := VBool (featured x) ]> ∅))))))))).

End Project.

(** ** The world of a handler *)

(** [projects] and [status_checks] are the two collections of [db], in
    insertion order. The three counters say how many identifiers
    [uuid.uuid4()] has produced, how often [datetime.utcnow()] was read, and
    how many documents the store has given an [_id]. *)
Record World := mkWorld {
  projects : list dict;
  status_checks : list dict;
  uuid_draws : nat;
  clock_reads : nat;
  oid_draws : nat
}.

Definition empty_world : World := mkWorld [] [] 0 0 0.

Definition set_projects (c : list dict) (w : World) : World :=
  mkWorld c (status_checks w) (uuid_draws w) (clock_reads w) (oid_draws w).

Definition set_status_checks (c : list dict) (w : World) : World :=
  mkWorld (projects w) c (uuid_draws w) (clock_reads w) (oid_draws w).

(** ** Exceptions and the handler monad *)

Inductive Exception : Type :=
| RequestValidationError
| ValidationError
| HTTPException (status_code : nat) (detail : string).

Inductive Outcome (A : Type) : Type :=
| Return (a : A)
| Raise (e : Exception).
Arguments Return {A} a.
Arguments Raise {A} e.

(** The status line FastAPI answers with: 200 for a returned value, 422 for
    a body that does not fit the declared class, the code of an
    [HTTPException], and 500 for any other exception of a handler. *)
Definition status_of {A} (o : Outcome A) : nat :=
  match o with
  | Return _ => 200
  | Raise RequestValidationError => 422
  | Raise ValidationError => 500
  | Raise (HTTPException c _) => c
  end.

Definition M (A : Type) : Type := World → Outcome A * World.

Definition ret {A} (a : A) : M A := λ w, (Return a, w).

Definition raise {A} (e : Exception) : M A := λ w, (Raise e, w).

Definition bind {A B} (m : M A) (k : A → M B) : M B :=
  λ w, match m w with
       | (Return a, w') => k a w'
       | (Raise e, w') => (Raise e, w')
       end.

#[global] Instance M_ret : MRet M := @ret.
#[global] Instance M_bind : MBind M := λ A B k m, bind m k.

(** A value that a model class refuses raises pydantic's error. *)
Definition checked {A} (o : option A) : M A :=
  match o with
  | Some a => ret a
  | None => raise ValidationError
  end.

(** [[f(x) for x in xs]] *)
Fixpoint for_each {A B} (f : A → M B) (xs : list A) : M (list B) :=
  match xs with
  | [] => ret []
  | x :: xs' =>
      y ← f x;
      ys ← for_each f xs';
      ret (y :: ys)
  end.

(** ** The document store *)

(** The two filters the handlers pass: [{}] and [{key: string}]. *)
Inductive query : Type :=
| q_all
| q_eq (k : string) (s : string).

Definition is_str (s : string) (v : value) : bool :=
  match v with VStr s' => bool_decide (s' = s) | _ => false end.

(** A document matches [{k: s}] when its field [k] is [s], or a sequence
    holding [s]. *)
Definition matches (q : query) (doc : dict) : bool :=
  match q with
  | q_all => true
  | q_eq k s =>
      match doc !! k with
      | Some (VList l) => existsb (is_str s) l
      | Some v => is_str s v
      | None => false
      end
  end.

(** What the store keeps of a value. A date of the store is a number of
    milliseconds since the epoch: of a [datetime] the microseconds below the
    millisecond are dropped. Every other value is kept as it is. The
    documents that the handlers insert hold their datetimes as fields of
    the document itself. *)
Definition to_millis (t : Z) : Z := (t `div` 1000 * 1000)%Z.

Definition bson_value (v : value) : value :=
  match v with
  | VDatetime t => VDatetime (to_millis t)
  | _ => v
  end.

Definition bson (doc : dict) : dict := bson_value <$> doc.

Module Collection.

(** [insert_one] gives the document an [_id] when it has none and appends
    what the store keeps of it. *)
Definition insert_one (doc : dict) (oid : nat) (coll : list dict) : list dict :=
  coll ++ [ bson match doc !! "_id" with
                 | None => <[ "_id" := VObjectId oid ]> doc
                 | Some _ => doc
                 end ].

(** [find().to_list(n)] *)
Definition to_list (n : nat) (coll : list dict) : list dict := take n coll.

(** [find_one(q)]: the first match in insertion order. *)
Definition find_one (q : query) (coll : list dict) : option dict :=
  List.find (matches q) coll.

(** [delete_one(q)]: removes the first match; the second component is
    [deleted_count]. *)
Fixpoint delete_one (q : query) (coll : list dict) : list dict * nat :=
  match coll with
  | [] => ([], 0)
  | d :: rest =>
      if matches q d then (rest, 1)
      else let '(rest', n) := delete_one q rest in (d :: rest', n)
  end.

(** [delete_many(q)] *)
Definition delete_many (q : query) (coll : list dict) : list dict * nat :=
  (List.filter (λ d, negb (matches q d)) coll,
   length (List.filter (matches q) coll)).

End Collection.

(** Python's truth value of a dict: empty is false. *)
Definition truthy (d : dict) : bool := negb (bool_decide (d = ∅)).

(** The collections of [db]. *)
Inductive collection : Type := db_projects | db_status_checks.

Definition get_coll (c : collection) (w : World) : list dict :=
  match c with
  | db_projects => projects w
  | db_status_checks => status_checks w
  end.

Definition set_coll (c : collection) (docs : list dict) (w : World) : World :=
  match c with
  | db_projects => set_projects docs w
  | db_status_checks => set_status_checks docs w
  end.

Definition insert_one (c : collection) (doc : dict) : M unit :=
  λ w, (Return (),
        mkWorld
          (match c with
           | db_projects => Collection.insert_one doc (oid_draws w) (projects w)
           | db_status_checks => projects w
           end)
          (match c with
           | db_projects => status_checks w
           | db_status_checks =>
               Collection.insert_one doc (oid_draws w) (status_checks w)
           end)
          (uuid_draws w) (clock_reads w) (S (oid_draws w))).

Definition find_to_list (c : collection) (n : nat) : M (list dict) :=
  λ w, (Return (Collection.to_list n (get_coll c w)), w).

Definition find_one (c : collection) (q : query) : M (option dict) :=
  λ w, (Return (Collection.find_one q (get_coll c w)), w).

Definition delete_one (c : collection) (q : query) : M nat :=
  λ w, let '(docs, n) := Collection.delete_one q (get_coll c w) in
       (Return n, set_coll c docs w).

Definition delete_many (c : collection) (q : query) : M nat :=
  λ w, let '(docs, n) := Collection.delete_many q (get_coll c w) in
       (Return n, set_coll c docs w).

(** The body of the answer of the seed route. *)
Record Seeded := mkSeeded {
  seeded_message : string;
  seeded_projects : list Project.t
}.

(** [sample_projects], the literal of [create_sample_projects]. *)
Definition sample (title description : string) (tech_stack : list string)
    (image_url demo_url github_url category : string) (featured : bool) : dict :=
  <[ "title" := VStr title ]>
  (<[ "description" := VStr description ]>
  (<[ "tech_stack" := of_list_str tech_stack ]>
  (<[ "image_url" := VStr image_url ]>
  (<[ "demo_url" := VStr demo_url ]>
  (<[ "github_url" := VStr github_url ]>
  (<[ "category" := VStr category ]>
  (<[ "featured" := VBool featured ]> ∅))))))).

Definition sample_projects : list dict :=
  [ sample "AI-Powered Chat Application"
      "A modern chat application with AI integration, real-time messaging, and beautiful UI. Features include smart responses, conversation history, and responsive design."
      ["React"; "Node.js"; "OpenAI"; "Socket.io"; "MongoDB"]
      "https://images.unsplash.com/photo-1587620962725-abab7fe55159?ixlib=rb-4.0.3&ixid=M3wxMjA3fDB8MHxwaG90by1wYWdlfHx8fGVufDB8fHx8fA%3D%3D&auto=format&fit=crop&w=1000&q=80"
      "https://demo-chat.example.com"
      "https://github.com/user/ai-chat"
      "Web Application" true;
    sample "3D Portfolio Website"
      "An interactive 3D portfolio showcasing projects with geometric shapes and smooth animations. Built with Three.js and React for an immersive user experience."
      ["React"; "Three.js"; "React Three Fiber"; "FastAPI"; "MongoDB"]
      "https://images.unsplash.com/photo-1633356122544-f134324a6cee?ixlib=rb-4.0.3&ixid=M3wxMjA3fDB8MHxwaG90by1wYWdlfHx8fGVufDB8fHx8fA%3D%3D&auto=format&fit=crop&w=1000&q=80"
      "https://portfolio-3d.example.com"
      "https://github.com/user/3d-portfolio"
      "Portfolio" true;
    sample "E-commerce Platform"
      "Full-stack e-commerce solution with payment integration, inventory management, and admin dashboard. Features modern design and seamless user experience."
      ["React"; "Express.js"; "Stripe"; "PostgreSQL"; "Redis"]
      "https://images.unsplash.com/photo-1556742049-0cfed4f6a45d?ixlib=rb-4.0.3&ixid=M3wxMjA3fDB8MHxwaG90by1wYWdlfHx8fGVufDB8fHx8fA%3D%3D&auto=format&fit=crop&w=1000&q=80"
      "https://shop.example.com"
      "https://github.com/user/ecommerce"
      "E-commerce" false;
    sample "Data Visualization Dashboard"
      "Interactive dashboard for data analytics with charts, graphs, and real-time updates. Perfect for business intelligence and data-driven decisions."
      ["React"; "D3.js"; "Python"; "FastAPI"; "PostgreSQL"]
      "https://images.unsplash.com/photo-1551288049-bebda4e38f71?ixlib=rb-4.0.3&ixid=M3wxMjA3fDB8MHxwaG90by1wYWdlfHx8fGVufDB8fHx8fA%3D%3D&auto=format&fit=crop&w=1000&q=80"
      "https://dashboard.example.com"
      "https://github.com/user/dashboard"
      "Data Analytics" true;
    sample "Mobile Game Development"
      "Engaging mobile game with 3D graphics, physics simulation, and multiplayer capabilities. Optimized for performance across all devices."
      ["Unity"; "C#"; "Firebase"; "Photon"; "Blender"]
      "https://images.unsplash.com/photo-1493711662062-fa541adb3fc8?ixlib=rb-4.0.3&ixid=M3wxMjA3fDB8MHxwaG90by1wYWdlfHx8fGVufDB8fHx8fA%3D%3D&auto=format&fit=crop&w=1000&q=80"
      "https://play.google.com/store/apps/details?id=com.example.game"
      "https://github.com/user/mobile-game"
      "Game Development" false;
    sample "Blockchain DeFi Platform"
      "Decentralized finance platform with smart contracts, yield farming, and token swapping. Built on Ethereum with modern web3 integration."
      ["Solidity"; "React"; "Web3.js"; "Hardhat"; "IPFS"]
      "https://images.unsplash.com/photo-1639762681485-074b7f938ba0?ixlib=rb-4.0.3&ixid=M3wxMjA3fDB8MHxwaG90by1wYWdlfHx8fGVufDB8fHx8fA%3D%3D&auto=format&fit=crop&w=1000&q=80"
      "https://defi.example.com"
      "https://github.com/user/defi-platform"
      "Blockchain" true ].

(** A concrete environment, used to run the handlers on examples: the
    [n]-th identifier is the text [uuid-n], the clock advances by one
    microsecond per reading, and a number given for a datetime is read as
    seconds since the epoch. [slow_clock_of] is a second clock, which
    advances by a millisecond and a half per reading. *)
Definition uuid_of (n : nat) : string := "uuid-" +:+ pretty n.

Definition clock_of (n : nat) : Z := (1700000000000000 + Z.of_nat n)%Z.

Definition slow_clock_of (n : nat) : Z :=
  (1700000000000000 + 1500 * Z.of_nat n)%Z.

Definition epoch_of (v : value) : option Z :=
  match v with
  | VInt n => Some (n * 1000000)%Z
  | _ => None
  end.

(** How FastAPI writes a returned [Project] into the answer
    ([response_model=Project], with no exclusion option on the route): every
    field of the class is a key of the JSON object. *)
Definition response_json (p : Project.t) : dict := Project.dict_of p.

(** A document of the store that reads back as the [Project] or the
    [StatusCheck]: its dict, with the [_id] of the store. *)
Definition stored_project (oid : nat) (p : Project.t) : dict :=
  <[ "_id" := VObjectId oid ]> (Project.dict_of p).

Definition stored_status (oid : nat) (s : StatusCheck.t) : dict :=
  <[ "_id" := VObjectId oid ]> (StatusCheck.dict_of s).

(** An object as the store keeps it: with its timestamp cut to the
    millisecond, and every other field as it is. *)
Definition project_at_millis (p : Project.t) : Project.t :=
  Project.mk (Project.id p) (Project.title p) (Project.description p)
    (Project.tech_stack p) (Project.image_url p) (Project.demo_url p)
    (Project.github_url p) (Project.category p)
    (to_millis (Project.created_date p)) (Project.featured p).

Definition status_at_millis (s : StatusCheck.t) : StatusCheck.t :=
  StatusCheck.mk (StatusCheck.id s) (StatusCheck.client_name s)
    (to_millis (StatusCheck.timestamp s)).

(** How many documents of a collection match a filter. *)
Definition count_matching (q : query) (coll : list dict) : nat :=
  length (List.filter (matches q) coll).

(** A required field of a body is unusable: the key is missing, or its value
    is not of the field's type. *)
Definition missing_or_ill_typed {A} (f : value → option A) (k : string)
    (kw : dict) : Prop :=
  match kw !! k with
  | None => True
  | Some v => f v = None
  end.

(** ** The handlers *)

Section Server.

(** The environment: [uuid4 n] is the text of the identifier that the
    [n]-th call of [uuid.uuid4()] produces, [utcnow n] is what the [n]-th
    reading of the clock returns, and [datetime_of v] is what pydantic reads
    a value [v] that is not a datetime as, when it is given for a
    [datetime] field. *)
Context (uuid4 : nat → string) (utcnow : nat → Z)
        (datetime_of : value → option Z).

Definition uuid4_str : M string :=
  λ w, (Return (uuid4 (uuid_draws w)),
        mkWorld (projects w) (status_checks w)
                (S (uuid_draws w)) (clock_reads w) (oid_draws w)).

Definition datetime_utcnow : M Z :=
  λ w, (Return (utcnow (clock_reads w)),
        mkWorld (projects w) (status_checks w)
                (uuid_draws w) (S (clock_reads w)) (oid_draws w)).

(** The three kinds of field of a model class, read from the keyword
    arguments: without a default, with a default value, with a
    [default_factory] (called only when the key is absent). *)
Definition field {A} (f : value → option A) (k : string) (kw : dict) : M A :=
  checked (required f k kw).

Definition field_default {A} (f : value → option A) (dflt : A) (k : string)
    (kw : dict) : M A :=
  checked (defaulted f dflt k kw).

Definition field_factory {A} (f : value → option A) (factory : M A) (k : string)
    (kw : dict) : M A :=
  match kw !! k with
  | Some v => checked (f v)
  | None => factory
  end.

(** The constructor of [StatusCheck], called with keyword arguments [kw]. *)
Definition StatusCheck_init (kw : dict) : M StatusCheck.t :=
  id ← field_factory as_str uuid4_str "id" kw;
  client_name ← field as_str "client_name" kw;
  timestamp ← field_factory (as_datetime datetime_of) datetime_utcnow "timestamp" kw;
  ret (StatusCheck.mk id client_name timestamp).

(** The constructor of [Project], called with keyword arguments [kw]. *)
Definition Project_init (kw : dict) : M Project.t :=
  id ← field_factory as_str uuid4_str "id" kw;
  title ← field as_str "title" kw;
  description ← field as_str "description" kw;
  tech_stack ← field as_list_str "tech_stack" kw;
  image_url ← field as_str "image_url" kw;
  demo_url ← field_default (as_optional as_str) None "demo_url" kw;
  github_url ← field_default (as_optional as_str) None "github_url" kw;
  category ← field as_str "category" kw;
  created_date ← field_factory (as_datetime datetime_of) datetime_utcnow "created_date" kw;
  featured ← field_default as_bool false "featured" kw;
  ret (Project.mk id title description tech_stack image_url demo_url
         github_url category created_date featured).

Definition root : M dict := ret {[ "message" := VStr "Hello World" ]}.

Definition create_status_check (input : StatusCheckCreate.t) : M StatusCheck.t :=
  let status_dict := StatusCheckCreate.dict_of input in
  status_obj ← StatusCheck_init status_dict;
  _ ← insert_one db_status_checks (StatusCheck.dict_of status_obj);
  ret status_obj.

Definition get_status_checks : M (list StatusCheck.t) :=
  status_checks ← find_to_list db_status_checks 1000;
  for_each StatusCheck_init status_checks.

Definition get_projects : M (list Project.t) :=
  projects ← find_to_list db_projects 1000;
  for_each Project_init projects.

Definition get_project (project_id : string) : M Project.t :=
  project ← find_one db_projects (q_eq "id" project_id);
  match project with
  | Some doc =>
      if truthy doc then Project_init doc
      else raise (HTTPException 404 "Project not found")
  | None => raise (HTTPException 404 "Project not found")
  end.

Definition create_project (project : ProjectCreate.t) : M Project.t :=
  let project_dict := ProjectCreate.dict_of project in
  project_obj ← Project_init project_dict;
  _ ← insert_one db_projects (Project.dict_of project_obj);
  ret project_obj.

Definition delete_project (project_id : string) : M dict :=
  deleted_count ← delete_one db_projects (q_eq "id" project_id);
  if Nat.eqb deleted_count 0
  then raise (HTTPException 404 "Project not found")
  else ret {[ "message" := VStr "Project deleted successfully" ]}.

Definition create_sample_projects : M Seeded :=
  _ ← delete_many db_projects q_all;
  created_projects ←
    for_each (λ project_data,
                project_obj ← Project_init project_data;
                _ ← insert_one db_projects (Project.dict_of project_obj);
                ret project_obj)
             sample_projects;
  ret (mkSeeded
         ("Created " +:+ pretty (length created_projects) +:+ " sample projects")
         created_projects).

(** ** The routes

    A route with a body first reads it into the declared class; a body that
    does not fit never reaches the handler. *)

Definition POST_status (body : value) : M StatusCheck.t :=
  match StatusCheckCreate.validate body with
  | Some input => create_status_check input
  | None => raise RequestValidationError
  end.

Definition POST_projects (body : value) : M Project.t :=
  match ProjectCreate.validate body with
  | Some project => create_project project
  | None => raise RequestValidationError
  end.

(** The world after one identifier and one reading of the clock. *)
Definition enriched (w : World) : World :=
  mkWorld (projects w) (status_checks w)
          (S (uuid_draws w)) (S (clock_reads w)) (oid_draws w).

(** The stored shape that the create shape [pc] is enriched to: with the
    [n]-th identifier and the [c]-th reading of the clock; in [w], with the
    next ones. *)
Definition enrich_at (n c : nat) (pc : ProjectCreate.t) : Project.t :=
  Project.mk (uuid4 n)
    (ProjectCreate.title pc) (ProjectCreate.description pc)
    (ProjectCreate.tech_stack pc) (ProjectCreate.image_url pc)
    (ProjectCreate.demo_url pc) (ProjectCreate.github_url pc)
    (ProjectCreate.category pc)
    (utcnow c) (ProjectCreate.featured pc).

Definition enrich (pc : ProjectCreate.t) (w : World) : Project.t :=
  enrich_at (uuid_draws w) (clock_reads w) pc.

(** ** Well-formed worlds

    What the handlers keep true of the store: every document is the dict of
    an object of the collection's class with the [_id] of the store (what
    [insert_one] stores for such an object is of this form), and every
    identifier of a project document was produced by the generator. *)

Definition is_project_doc (d : dict) : Prop :=
  ∃ oid p, d = stored_project oid p.

Definition is_status_doc (d : dict) : Prop :=
  ∃ oid s, d = stored_status oid s.

Definition well_formed (w : World) : Prop :=
  Forall is_project_doc (projects w) ∧ Forall is_status_doc (status_checks w).

Definition ids_issued (w : World) : Prop :=
  ∀ d s, d ∈ projects w → d !! "id" = Some (VStr s) →
         ∃ k, k < uuid_draws w ∧ s = uuid4 k.

Definition consistent (w : World) : Prop := well_formed w ∧ ids_issued w.

End Server.

(** ** Example requests

    The body of the test script's create request without its optional keys,
    what it is read as, and variants of it; [example_world] is the world
    after the body was posted to the empty one. *)
Definition example_body : dict :=
  <[ "title" := VStr "Test Project" ]>
  (<[ "description" :=
        VStr "This is a test project created by the automated test script" ]>
  (<[ "tech_stack" := VList [VStr "Python"; VStr "FastAPI"; VStr "Testing"] ]>
  (<[ "image_url" :=
        VStr "https://images.unsplash.com/photo-1517694712202-14dd9538aa97" ]>
  (<[ "category" := VStr "Testing" ]> ∅)))).

Definition example_create : ProjectCreate.t :=
  ProjectCreate.mk "Test Project"
    "This is a test project created by the automated test script"
    ["Python"; "FastAPI"; "Testing"]
    "https://images.unsplash.com/photo-1517694712202-14dd9538aa97"
    None None "Testing" false.

Definition example_body_with_id : dict :=
  <[ "id" := VStr "chosen-by-the-client" ]>
  (<[ "created_date" := VInt 0 ]> example_body).

Definition example_body_empty_title : dict :=
  <[ "title" := VStr "" ]> example_body.

Definition example_world : World :=
  snd (POST_projects uuid_of clock_of epoch_of (VDict example_body) empty_world).


(** ** The router

    The requests that [api_router] registers a handler for, and the status
    and world that serving one of them leaves. *)
Inductive request : Type :=
| Get_root
| Post_status (body : value)
| Get_status
| Get_projects
| Get_project (project_id : string)
| Post_projects (body : value)
| Delete_project (project_id : string)
| Post_projects_sample.

Definition answer {A} (m : M A) (w : World) : nat * World :=
  (status_of (fst (m w)), snd (m w)).

Section Router.

Context (uuid4 : nat → string) (utcnow : nat → Z)
        (datetime_of : value → option Z).

Definition serve (r : request) : World → nat * World :=
  match r with
  | Get_root => answer root
  | Post_status body => answer (POST_status uuid4 utcnow datetime_of body)
  | Get_status => answer (get_status_checks uuid4 utcnow datetime_of)
  | Get_projects => answer (get_projects uuid4 utcnow datetime_of)
  | Get_project project_id => answer (get_project uuid4 utcnow datetime_of project_id)
  | Post_projects body => answer (POST_projects uuid4 utcnow datetime_of body)
  | Delete_project project_id => answer (delete_project project_id)
  | Post_projects_sample => answer (create_sample_projects uuid4 utcnow datetime_of)
  end.

(** The worlds that the server can be in: the empty one, and the one left
    by serving a request in such a world. *)
Inductive reachable : World → Prop :=
| reachable_empty : reachable empty_world
| reachable_serve r w : reachable w → reachable (snd (serve r w)).

End Router.

(** The identifiers of the documents of the catalog, in insertion order. *)
Definition project_ids (w : World) : list string :=
  omap (λ d : dict, d !! "id" ≫= as_str) (projects w).

(** A computation that leaves both collections as it found them. *)
Definition keeps_collections {A} (m : M A) : Prop :=
  ∀ w, projects (snd (m w)) = projects w ∧
       status_checks (snd (m w)) = status_checks w.

(** The requests served by the routes registered with [get]. *)
Definition is_get (r : request) : bool :=
  match r with
  | Get_root | Get_status | Get_projects | Get_project _ => true
  | _ => false
  end.

(** The status codes that a route can answer with when every document of
    the store is well-formed. *)
Definition possible_statuses (r : request) : list nat :=
  match r with
  | Get_root | Get_status | Get_projects | Post_projects_sample => [200]
  | Post_status _ | Post_projects _ => [200; 422]
  | Get_project _ | Delete_project _ => [200; 404]
  end.

(** The creation timestamps of the documents of the catalog, in insertion
    order. *)
Definition datetime_value (v : value) : option Z :=
  match v with VDatetime t => Some t | _ => None end.

Definition created_dates (w : World) : list Z :=
  omap (λ d : dict, d !! "created_date" ≫= datetime_value) (projects w).

(** A computation that raises nothing but [e]. *)
Definition raises_only {A} (e : Exception) (m : M A) : Prop :=
  ∀ w e' w', m w = (Raise e', w') → e' = e.

(** Every creation timestamp of the catalog is a reading of the clock, cut
    to the millisecond, and the readings were taken in insertion order. *)
Definition clock_stamped (utcnow : nat → Z) (w : World) : Prop :=
  ∃ ks : list nat,
    created_dates w = (λ k, to_millis (utcnow k)) <$> ks ∧
    StronglySorted lt ks ∧
    Forall (λ k, k < clock_reads w) ks.

(** ** The answers as a client reads them

    What FastAPI sends for the outcome of a handler: the status line and
    the JSON body. A returned object is written with every field of its
    class; an [HTTPException] as [{"detail": ...}]; a body that does not
    fit as a 422 whose detail lists the errors (not modelled further); any
    other exception as a 500 whose body is not JSON. Timestamps stay
    [VDatetime] where the wire carries their ISO text. *)
Record Response := mkResponse {
  status_code : nat;
  json : option value
}.

Definition json_of_project (p : Project.t) : value := VDict (response_json p).

Definition json_of_status (s : StatusCheck.t) : value :=
  VDict (StatusCheck.dict_of s).

Definition json_of_seeded (r : Seeded) : value :=
  VDict (<[ "message" := VStr (seeded_message r) ]>
        (<[ "projects" := VList (json_of_project <$> seeded_projects r) ]> ∅)).

Definition respond {A} (encode : A → value) (m : M A) (w : World)
  : Response * World :=
  (match fst (m w) with
   | Return a => mkResponse 200 (Some (encode a))
   | Raise (HTTPException c d) =>
       mkResponse c (Some (VDict {[ "detail" := VStr d ]}))
   | Raise RequestValidationError =>
       mkResponse 422 (Some (VDict {[ "detail" := VList [] ]}))
   | Raise ValidationError => mkResponse 500 None
   end,
   snd (m w)).

(** ** Python on JSON values

    [k in v], [v[k]] for a string [k], [len(v)], iteration, and whether a
    value can be put in a set; [None] is a raised exception. *)
Definition py_in (k : string) (v : value) : option bool :=
  match v with
  | VDict d => Some (bool_decide (is_Some (d !! k)))
  | VList l => Some (existsb (is_str k) l)
  | VStr s => Some (bool_decide (is_Some (String.index 0 k s)))
  | _ => None
  end.

Definition py_getitem (v : value) (k : string) : option value :=
  match v with
  | VDict d => d !! k
  | _ => None
  end.

Definition py_len (v : value) : option nat :=
  match v with
  | VDict d => Some (size d)
  | VList l => Some (length l)
  | VStr s => Some (String.length s)
  | _ => None
  end.

Fixpoint chars (s : string) : list value :=
  match s with
  | EmptyString => []
  | String c rest => VStr (String c EmptyString) :: chars rest
  end.

Definition py_iter (v : value) : option (list value) :=
  match v with
  | VList l => Some l
  | VDict d => Some (VStr <$> (map_to_list d).*1)
  | VStr s => Some (chars s)
  | _ => None
  end.

Definition hashable (v : value) : bool :=
  match v with
  | VList _ | VDict _ => false
  | _ => true
  end.

(** [except Exception: return False] *)
Definition caught (o : option bool) : bool := default false o.

(** ** The test script (backend_test.py)

    Each test sends its request and judges the answer; printing is left
    out, except where formatting the printed text can raise. The id in a
    URL is taken to be one path segment, as the text of a UUID is. *)

Definition required_fields : list string :=
  [ "id"; "title"; "description"; "tech_stack"; "image_url"; "category";
    "created_date" ].

Fixpoint check_fields (fields : list string) (project : value) : option bool :=
  match fields with
  | [] => Some true
  | field :: rest =>
      present ← py_in field project;
      if present : bool then check_fields rest project else Some false
  end.

(** The loop of [test_create_sample_projects] over the projects of the
    answer: [Some false] is its [return False], [None] an exception. *)
Fixpoint check_projects (items : list value) : option bool :=
  match items with
  | [] => Some true
  | project :: rest =>
      category ← py_getitem project "category";
      if hashable category then
        ok ← check_fields required_fields project;
        if ok : bool then check_projects rest else Some false
      else None
  end.

(** What the tests decide from an answer. *)
Definition judge_health (response : Response) : bool :=
  caught (if Nat.eqb (status_code response) 200
          then j ← json response; py_in "message" j
          else Some false).

Definition judge_sample (response : Response) : bool :=
  caught (if Nat.eqb (status_code response) 200
          then j ← json response;
               has ← py_in "projects" j;
               if has : bool then
                 projects ← py_getitem j "projects";
                 n ← py_len projects;
                 if Nat.eqb n 6 then
                   items ← py_iter projects;
                   check_projects items
                 else Some false
               else Some false
          else Some false).

Definition judge_get_all (response : Response) : option value :=
  if Nat.eqb (status_code response) 200
  then projects ← json response; _ ← py_len projects; Some projects
  else None.

Definition judge_get_by_id (project_id : string) (response : Response) : bool :=
  caught (if Nat.eqb (status_code response) 200
          then project ← json response;
               has ← py_in "id" project;
               if has : bool then
                 id ← py_getitem project "id";
                 if is_str project_id id
                 then _ ← py_getitem project "title"; Some true
                 else Some false
               else Some false
          else Some false).

Definition judge_create (response : Response) : option value :=
  if Nat.eqb (status_code response) 200
  then j ← json response;
       has ← py_in "id" j;
       if has : bool then py_getitem j "id" else None
  else None.

(** [new_project], the body of [test_create_project]. *)
Definition new_project : value :=
  VDict (<[ "title" := VStr "Test Project" ]>
        (<[ "description" :=
              VStr "This is a test project created by the automated test script" ]>
        (<[ "tech_stack" := VList [VStr "Python"; VStr "FastAPI"; VStr "Testing"] ]>
        (<[ "image_url" :=
              VStr "https://images.unsplash.com/photo-1517694712202-14dd9538aa97" ]>
        (<[ "demo_url" := VStr "https://test.example.com" ]>
        (<[ "github_url" := VStr "https://github.com/user/test-project" ]>
        (<[ "category" := VStr "Testing" ]>
        (<[ "featured" := VBool true ]> ∅)))))))).

Section TestScript.

Context (uuid4 : nat → string) (utcnow : nat → Z)
        (datetime_of : value → option Z).

(** [requests.get], [post] and [delete] on the routes of the server. *)
Definition http (r : request) : World → Response * World :=
  match r with
  | Get_root => respond VDict root
  | Post_status body => respond json_of_status (POST_status uuid4 utcnow datetime_of body)
  | Get_status =>
      respond (λ l, VList (json_of_status <$> l)) (get_status_checks uuid4 utcnow datetime_of)
  | Get_projects =>
      respond (λ l, VList (json_of_project <$> l)) (get_projects uuid4 utcnow datetime_of)
  | Get_project project_id =>
      respond json_of_project (get_project uuid4 utcnow datetime_of project_id)
  | Post_projects body =>
      respond json_of_project (POST_projects uuid4 utcnow datetime_of body)
  | Delete_project project_id => respond VDict (delete_project project_id)
  | Post_projects_sample =>
      respond json_of_seeded (create_sample_projects uuid4 utcnow datetime_of)
  end.

Definition test_api_health (w : World) : bool * World :=
  (judge_health (fst (http Get_root w)), snd (http Get_root w)).

Definition test_create_sample_projects (w : World) : bool * World :=
  (judge_sample (fst (http Post_projects_sample w)),
   snd (http Post_projects_sample w)).

Definition test_get_all_projects (w : World) : option value * World :=
  (judge_get_all (fst (http Get_projects w)), snd (http Get_projects w)).

Definition test_get_project_by_id (project_id : string) (w : World)
  : bool * World :=
  (judge_get_by_id project_id (fst (http (Get_project project_id) w)),
   snd (http (Get_project project_id) w)).

Definition test_create_project (w : World) : option value * World :=
  (judge_create (fst (http (Post_projects new_project) w)),
   snd (http (Post_projects new_project) w)).

(** The delete test: the delete must answer 200 and a fetch of the id
    afterwards 404; the fetch is only sent after a 200. *)
Definition test_delete_project (project_id : string) (w : World)
  : bool * World :=
  let w1 := snd (http (Delete_project project_id) w) in
  if Nat.eqb (status_code (fst (http (Delete_project project_id) w))) 200
  then (Nat.eqb (status_code (fst (http (Get_project project_id) w1))) 404,
        snd (http (Get_project project_id) w1))
  else (false, w1).

(** [fake_id] is the identifier that the test draws from its own
    generator. *)
Definition test_delete_nonexistent_project (fake_id : string) (w : World)
  : bool * World :=
  (Nat.eqb (status_code (fst (http (Delete_project fake_id) w))) 404,
   snd (http (Delete_project fake_id) w)).

End TestScript.

(** ** More example worlds

    The project of [example_world]; a consistent world whose catalog holds
    1000 documents; a world whose catalog holds one document without any
    field; a status-check body, and [example_world] after it was posted;
    and the world after two create requests under the slow clock, whose two
    projects carry different timestamps. *)
Definition example_project : Project.t :=
  enrich uuid_of clock_of example_create empty_world.

Definition full_world : World :=
  mkWorld (replicate 1000 (stored_project 0 example_project)) [] 1 1 1.

Definition broken_world : World := mkWorld [∅] [] 0 0 0.

Definition example_status_body : dict :=
  {[ "client_name" := VStr "test-client" ]}.

Definition status_world : World :=
  snd (POST_status uuid_of clock_of epoch_of (VDict example_status_body)
         example_world).

Definition two_projects_world : World :=
  snd (POST_projects uuid_of slow_clock_of epoch_of new_project
         (snd (POST_projects uuid_of slow_clock_of epoch_of
                 (VDict example_body) empty_world))).

(** ** Field types, [dict()] and the constructors *)

Lemma mapM_as_str_VStr (l : list string) : mapM as_str (VStr <$> l) = Some l.
Proof.
  induction l as [|s l IH]; [done|].
  cbn. cbn in IH. by rewrite IH.
Qed.

Lemma as_optional_of_optional_str (o : option string) :
  as_optional as_str (of_optional_str o) = Some o.
Proof. by destruct o. Qed.

Lemma required_None_iff {A} (f : value → option A) k kw :
  required f k kw = None ↔ missing_or_ill_typed f k kw.
Proof.
  unfold required, missing_or_ill_typed. by destruct (kw !! k).
Qed.

(** The monad's equations. *)
Lemma bind_Return {A B} (m : M A) (k : A → M B) w a w' :
  m w = (Return a, w') → (m ≫= k) w = k a w'.
Proof. intros H. unfold mbind, M_bind, bind. by rewrite H. Qed.

Lemma bind_Raise {A B} (m : M A) (k : A → M B) w e w' :
  m w = (Raise e, w') → (m ≫= k) w = (Raise e, w').
Proof. intros H. unfold mbind, M_bind, bind. by rewrite H. Qed.

Lemma bind_inv_Return {A B} (m : M A) (k : A → M B) w b w2 :
  (m ≫= k) w = (Return b, w2) →
  ∃ a w1, m w = (Return a, w1) ∧ k a w1 = (Return b, w2).
Proof.
  unfold mbind, M_bind, bind. destruct (m w) as [[a|e] w1]; [eauto|done].
Qed.

Section Constructors.

Context (uuid4 : nat → string) (utcnow : nat → Z)
        (datetime_of : value → option Z).

Ltac unfold_init :=
  unfold Project_init, StatusCheck_init, field, field_factory, field_default,
    required, defaulted.

Lemma Project_init_create pc w :
  Project_init uuid4 utcnow datetime_of (ProjectCreate.dict_of pc) w
  = (Return (enrich uuid4 utcnow pc w), enriched w).
Proof.
  destruct pc. unfold_init. unfold ProjectCreate.dict_of, enrich, enrich_at.
  simplify_map_eq.
  rewrite mapM_as_str_VStr, !as_optional_of_optional_str. done.
Qed.

Lemma Project_init_stored oid p w :
  Project_init uuid4 utcnow datetime_of (stored_project oid p) w = (Return p, w).
Proof.
  destruct p. unfold_init. unfold stored_project, Project.dict_of.
  simplify_map_eq.
  rewrite mapM_as_str_VStr, !as_optional_of_optional_str. done.
Qed.

Lemma StatusCheck_init_create x w :
  StatusCheck_init uuid4 utcnow datetime_of (StatusCheckCreate.dict_of x) w
  = (Return (StatusCheck.mk (uuid4 (uuid_draws w))
               (StatusCheckCreate.client_name x) (utcnow (clock_reads w))),
     enriched w).
Proof.
  destruct x. unfold_init. unfold StatusCheckCreate.dict_of.
  by simplify_map_eq.
Qed.

Lemma StatusCheck_init_stored oid s w :
  StatusCheck_init uuid4 utcnow datetime_of (stored_status oid s) w = (Return s, w).
Proof.
  destruct s. unfold_init. unfold stored_status, StatusCheck.dict_of.
  by simplify_map_eq.
Qed.

End Constructors.

(** ** The document store *)

Lemma delete_many_all (coll : list dict) :
  Collection.delete_many q_all coll = ([], length coll).
Proof.
  unfold Collection.delete_many. f_equal.
  - induction coll as [|d coll IH]; [done|]. simpl. exact IH.
  - induction coll as [|d coll IH]; [done|]. simpl. by rewrite IH.
Qed.

Lemma find_one_None q (coll : list dict) :
  Collection.find_one q coll = None ↔ count_matching q coll = 0.
Proof.
  unfold Collection.find_one, count_matching.
  induction coll as [|d coll IH]; simpl; [done|].
  destruct (matches q d); simpl; [split; intros; discriminate | exact IH].
Qed.

Lemma find_one_Some q (coll : list dict) d :
  Collection.find_one q coll = Some d → d ∈ coll ∧ matches q d = true.
Proof.
  unfold Collection.find_one. intros H.
  apply List.find_some in H as [Hin Hm]. split; [|done].
  by apply list_elem_of_In.
Qed.

Lemma count_matching_zero q (coll : list dict) :
  count_matching q coll = 0 ↔ ∀ d, d ∈ coll → matches q d = false.
Proof.
  unfold count_matching. induction coll as [|d coll IH]; simpl.
  - split; [|done]. intros _ d Hd. by apply elem_of_nil in Hd.
  - destruct (matches q d) eqn:Hm; simpl.
    + split; [done|]. intros H. specialize (H d (list_elem_of_here _ _)).
      congruence.
    + rewrite IH. split.
      * intros H d' Hd'. apply elem_of_cons in Hd' as [->|Hd']; auto.
      * intros H d' Hd'. apply H. by apply list_elem_of_further.
Qed.

Lemma delete_one_zero q (coll : list dict) :
  count_matching q coll = 0 → Collection.delete_one q coll = (coll, 0).
Proof.
  unfold count_matching. induction coll as [|d coll IH]; simpl; [done|].
  destruct (matches q d); simpl; [done|]. intros H. by rewrite (IH H).
Qed.

Lemma delete_one_pos q (coll : list dict) :
  count_matching q coll ≠ 0 →
  snd (Collection.delete_one q coll) = 1 ∧
  S (count_matching q (fst (Collection.delete_one q coll)))
  = count_matching q coll.
Proof.
  unfold count_matching. induction coll as [|d coll IH]; simpl; [done|].
  destruct (matches q d) eqn:Hm; simpl; [done|]. intros H.
  destruct (IH H) as [H1 H2].
  destruct (Collection.delete_one q coll) as [rest n]. simpl in *.
  by rewrite Hm.
Qed.

Lemma delete_one_single q (coll : list dict) :
  count_matching q coll = 1 →
  fst (Collection.delete_one q coll)
  = List.filter (λ d, negb (matches q d)) coll.
Proof.
  unfold count_matching. induction coll as [|d coll IH]; simpl; [done|].
  destruct (matches q d) eqn:Hm; simpl.
  - intros H. injection H as H. symmetry.
    pose proof (proj1 (count_matching_zero q coll) H) as H0. clear H IH.
    rename H0 into H.
    induction coll as [|d' coll IH]; [done|]. simpl.
    rewrite (H d' (list_elem_of_here _ _)). simpl. f_equal.
    apply IH. intros d'' Hd''. apply H. by apply list_elem_of_further.
  - intros H. specialize (IH H).
    destruct (Collection.delete_one q coll) as [rest n]. simpl in *.
    by rewrite IH.
Qed.

Lemma count_matching_filter_out q (coll : list dict) :
  count_matching q (List.filter (λ d, negb (matches q d)) coll) = 0.
Proof.
  apply count_matching_zero. intros d Hd.
  apply list_elem_of_In, List.filter_In in Hd as [_ Hd].
  by apply negb_true_iff in Hd.
Qed.

(** A document that matches a filter on a key has that key: it is not the
    empty dict. *)
Lemma matches_truthy k s (d : dict) :
  matches (q_eq k s) d = true → truthy d = true.
Proof.
  unfold matches, truthy. intros H.
  apply negb_true_iff, bool_decide_eq_false. intros ->.
  by rewrite lookup_empty in H.
Qed.

Lemma stored_project_id oid p :
  stored_project oid p !! "id" = Some (VStr (Project.id p)).
Proof. unfold stored_project, Project.dict_of. by simplify_map_eq. Qed.

Lemma matches_stored_project oid p pid :
  matches (q_eq "id" pid) (stored_project oid p)
  = bool_decide (Project.id p = pid).
Proof. unfold matches. by rewrite stored_project_id. Qed.

Lemma insert_one_fresh_id oid (doc : dict) (coll : list dict) :
  doc !! "_id" = None →
  Collection.insert_one doc oid coll
  = coll ++ [<["_id" := VObjectId oid]> (bson doc)].
Proof.
  intros H. unfold Collection.insert_one. rewrite H.
  unfold bson. by rewrite fmap_insert.
Qed.

Lemma Project_dict_of_no_oid p : Project.dict_of p !! "_id" = None.
Proof. unfold Project.dict_of. by simplify_map_eq. Qed.

Lemma StatusCheck_dict_of_no_oid s : StatusCheck.dict_of s !! "_id" = None.
Proof. unfold StatusCheck.dict_of. by simplify_map_eq. Qed.

(** ** What the store keeps of an object *)

Lemma to_millis_le (t : Z) : (to_millis t ≤ t)%Z.
Proof. unfold to_millis. pose proof (Z.mul_div_le t 1000). lia. Qed.

Lemma to_millis_mono (t t' : Z) : (t ≤ t')%Z → (to_millis t ≤ to_millis t')%Z.
Proof.
  intros H. unfold to_millis.
  pose proof (Z.div_le_mono t t' 1000). lia.
Qed.

Lemma to_millis_idemp (t : Z) : to_millis (to_millis t) = to_millis t.
Proof. unfold to_millis. by rewrite Z.div_mul. Qed.

Lemma to_millis_whole (t : Z) : to_millis t = t ↔ (t `mod` 1000 = 0)%Z.
Proof. unfold to_millis. pose proof (Z.div_mod t 1000). lia. Qed.

Lemma bson_value_of_optional_str o :
  bson_value (of_optional_str o) = of_optional_str o.
Proof. by destruct o. Qed.

Lemma bson_Project_dict_of p :
  bson (Project.dict_of p) = Project.dict_of (project_at_millis p).
Proof.
  unfold bson, Project.dict_of, project_at_millis.
  rewrite !fmap_insert, fmap_empty, !bson_value_of_optional_str. done.
Qed.

Lemma bson_StatusCheck_dict_of s :
  bson (StatusCheck.dict_of s) = StatusCheck.dict_of (status_at_millis s).
Proof.
  unfold bson, StatusCheck.dict_of, status_at_millis.
  by rewrite !fmap_insert, fmap_empty.
Qed.

Lemma project_at_millis_idemp p :
  project_at_millis (project_at_millis p) = project_at_millis p.
Proof.
  unfold project_at_millis. cbn. by rewrite to_millis_idemp.
Qed.

Lemma project_at_millis_whole p :
  (Project.created_date p `mod` 1000 = 0)%Z → project_at_millis p = p.
Proof.
  intros H. apply to_millis_whole in H. destruct p. unfold project_at_millis.
  cbn in *. by rewrite H.
Qed.

(** ** The handlers, step by step *)

Section Handlers.

Context (uuid4 : nat → string) (utcnow : nat → Z)
        (datetime_of : value → option Z).

(** The world after [create_project] has stored [p]. *)
Lemma create_project_eq pc w :
  create_project uuid4 utcnow datetime_of pc w
  = (Return (enrich uuid4 utcnow pc w),
     mkWorld
       (projects w
          ++ [stored_project (oid_draws w)
                (project_at_millis (enrich uuid4 utcnow pc w))])
       (status_checks w)
       (S (uuid_draws w)) (S (clock_reads w)) (S (oid_draws w))).
Proof.
  unfold create_project.
  rewrite (bind_Return _ _ _ _ _
             (Project_init_create uuid4 utcnow datetime_of pc w)).
  unfold mbind, M_bind, bind, insert_one, ret. cbn [enriched projects
    status_checks uuid_draws clock_reads oid_draws].
  rewrite insert_one_fresh_id by apply Project_dict_of_no_oid.
  by rewrite bson_Project_dict_of.
Qed.

Lemma create_status_check_eq x w :
  create_status_check uuid4 utcnow datetime_of x w
  = (Return (StatusCheck.mk (uuid4 (uuid_draws w))
               (StatusCheckCreate.client_name x) (utcnow (clock_reads w))),
     mkWorld
       (projects w)
       (status_checks w
          ++ [stored_status (oid_draws w)
                (status_at_millis
                   (StatusCheck.mk (uuid4 (uuid_draws w))
                      (StatusCheckCreate.client_name x)
                      (utcnow (clock_reads w))))])
       (S (uuid_draws w)) (S (clock_reads w)) (S (oid_draws w))).
Proof.
  unfold create_status_check.
  rewrite (bind_Return _ _ _ _ _
             (StatusCheck_init_create uuid4 utcnow datetime_of x w)).
  unfold mbind, M_bind, bind, insert_one, ret. cbn [enriched projects
    status_checks uuid_draws clock_reads oid_draws].
  rewrite insert_one_fresh_id by apply StatusCheck_dict_of_no_oid.
  by rewrite bson_StatusCheck_dict_of.
Qed.

Lemma get_project_found pid w d :
  Collection.find_one (q_eq "id" pid) (projects w) = Some d →
  get_project uuid4 utcnow datetime_of pid w = Project_init uuid4 utcnow datetime_of d w.
Proof.
  intros H. unfold get_project, find_one, mbind, M_bind, bind.
  cbn [get_coll]. rewrite H.
  apply find_one_Some in H as [_ Hm].
  by rewrite (matches_truthy _ _ _ Hm).
Qed.

Lemma get_project_not_found pid w :
  count_matching (q_eq "id" pid) (projects w) = 0 →
  get_project uuid4 utcnow datetime_of pid w
  = (Raise (HTTPException 404 "Project not found"), w).
Proof.
  intros H. apply find_one_None in H.
  unfold get_project, find_one, mbind, M_bind, bind.
  cbn [get_coll]. by rewrite H.
Qed.

Lemma delete_project_eq pid w :
  delete_project pid w
  = let '(docs, n) := Collection.delete_one (q_eq "id" pid) (projects w) in
    (if Nat.eqb n 0
     then Raise (HTTPException 404 "Project not found")
     else Return {[ "message" := VStr "Project deleted successfully" ]},
     set_projects docs w).
Proof.
  unfold delete_project, delete_one, mbind, M_bind, bind. cbn [get_coll].
  destruct (Collection.delete_one _ _) as [docs n]. cbn [set_coll].
  by destruct (Nat.eqb n 0).
Qed.

Lemma set_projects_same w : set_projects (projects w) w = w.
Proof. by destruct w. Qed.

(** Reading back the documents that the handlers stored never fails and
    changes nothing. *)
Lemma for_each_stored_projects (l : list dict) w :
  Forall is_project_doc l →
  ∃ ps, for_each (Project_init uuid4 utcnow datetime_of) l w = (Return ps, w) ∧
        Forall2 (λ d p, ∃ oid, d = stored_project oid p) l ps.
Proof.
  induction 1 as [|d l (oid & p & ->) _ (ps & IH & HF)].
  - exists []. split; [done|constructor].
  - exists (p :: ps). split; [|constructor; eauto].
    cbn [for_each].
    rewrite (bind_Return _ _ _ _ _ (Project_init_stored uuid4 utcnow datetime_of oid p w)).
    by rewrite (bind_Return _ _ _ _ _ IH).
Qed.

Lemma for_each_stored_status (l : list dict) w :
  Forall is_status_doc l →
  ∃ ss, for_each (StatusCheck_init uuid4 utcnow datetime_of) l w = (Return ss, w) ∧
        Forall2 (λ d s, ∃ oid, d = stored_status oid s) l ss.
Proof.
  induction 1 as [|d l (oid & s & ->) _ (ss & IH & HF)].
  - exists []. split; [done|constructor].
  - exists (s :: ss). split; [|constructor; eauto].
    cbn [for_each].
    rewrite (bind_Return _ _ _ _ _ (StatusCheck_init_stored uuid4 utcnow datetime_of oid s w)).
    by rewrite (bind_Return _ _ _ _ _ IH).
Qed.

(** In a consistent world no stored project carries an identifier that the
    generator has yet to produce. *)
Lemma fresh_id_unmatched w :
  Inj (=) (=) uuid4 → consistent uuid4 w →
  count_matching (q_eq "id" (uuid4 (uuid_draws w))) (projects w) = 0.
Proof.
  intros Hinj [[Hwf _] Hids]. apply count_matching_zero. intros d Hd.
  pose proof (proj1 (Forall_forall _ _) Hwf d Hd) as (oid & p & ->).
  rewrite matches_stored_project. apply bool_decide_eq_false. intros Heq.
  destruct (Hids _ _ Hd (stored_project_id oid p)) as (k & Hk & Hp).
  rewrite Hp in Heq. apply Hinj in Heq. lia.
Qed.

End Handlers.


(** ** The seed loop *)

Lemma sample_as_create t d ts im de gh c f :
  sample t d ts im de gh c f
  = ProjectCreate.dict_of (ProjectCreate.mk t d ts im (Some de) (Some gh) c f).
Proof. reflexivity. Qed.

(** Every entry of [sample_projects] is the dict of a create shape. *)
Lemma sample_projects_creates :
  ∃ pcs, sample_projects = ProjectCreate.dict_of <$> pcs ∧
         ProjectCreate.category <$> pcs
         = [ "Web Application"; "Portfolio"; "E-commerce"; "Data Analytics";
             "Game Development"; "Blockchain" ].
Proof.
  unfold sample_projects. rewrite !sample_as_create.
  eexists [_; _; _; _; _; _]. split; reflexivity.
Qed.

Section Seed.

Context (uuid4 : nat → string) (utcnow : nat → Z)
        (datetime_of : value → option Z).

(** The body of the loop of [create_sample_projects]. *)
Local Abbreviation seed_one :=
  (λ project_data : dict,
     Project_init uuid4 utcnow datetime_of project_data ≫= λ project_obj,
     insert_one db_projects (Project.dict_of project_obj) ≫= λ _,
     ret project_obj).

Lemma seed_loop pcs w :
  ∃ w', for_each seed_one (ProjectCreate.dict_of <$> pcs) w
        = (Return (imap (λ i, enrich_at uuid4 utcnow
                                (uuid_draws w + i) (clock_reads w + i)) pcs),
           w') ∧
        projects w'
        = projects w
            ++ imap (λ i pc, stored_project (oid_draws w + i)
                               (project_at_millis
                                  (enrich_at uuid4 utcnow (uuid_draws w + i)
                                     (clock_reads w + i) pc))) pcs ∧
        status_checks w' = status_checks w ∧
        uuid_draws w' = uuid_draws w + length pcs ∧
        clock_reads w' = clock_reads w + length pcs ∧
        oid_draws w' = oid_draws w + length pcs.
Proof.
  revert w. induction pcs as [|pc pcs IH]; intros w.
  - exists w. cbn. rewrite app_nil_r. repeat split; lia.
  - pose proof (create_project_eq uuid4 utcnow datetime_of pc w) as Hc.
    unfold create_project in Hc. cbv zeta in Hc.
    destruct (IH (snd (create_project uuid4 utcnow datetime_of pc w)))
      as (w' & Hrun & Hp & Hs & Hu & Hk & Ho).
    rewrite create_project_eq in Hrun, Hp, Hs, Hu, Hk, Ho.
    cbn [snd projects status_checks uuid_draws clock_reads oid_draws]
      in Hrun, Hp, Hs, Hu, Hk, Ho.
    exists w'. rewrite fmap_cons. cbn [for_each].
    rewrite (bind_Return _ _ _ _ _ Hc), (bind_Return _ _ _ _ _ Hrun).
    rewrite !imap_cons, !Nat.add_0_r.
    split; [|split; [|split; [exact Hs|cbn [length]; lia]]].
    + unfold ret, enrich. do 3 f_equal. apply imap_ext. intros i x _.
      cbn. f_equal; lia.
    + rewrite Hp, <- app_assoc. cbn [app]. unfold enrich. do 2 f_equal.
      apply imap_ext. intros i x _. cbn.
      f_equal; [lia|do 2 f_equal; lia].
Qed.

(** The seed route as one step: the catalog is emptied and refilled with
    the enriched samples; nothing of the former catalog is read. *)
Lemma create_sample_projects_eq w :
  ∃ pcs w',
    sample_projects = ProjectCreate.dict_of <$> pcs ∧
    ProjectCreate.category <$> pcs
    = [ "Web Application"; "Portfolio"; "E-commerce"; "Data Analytics";
        "Game Development"; "Blockchain" ] ∧
    create_sample_projects uuid4 utcnow datetime_of w
    = (Return
         (mkSeeded
            ("Created " +:+ pretty (length pcs) +:+ " sample projects")
            (imap (λ i, enrich_at uuid4 utcnow
                          (uuid_draws w + i) (clock_reads w + i)) pcs)),
       w') ∧
    projects w'
    = imap (λ i pc, stored_project (oid_draws w + i)
                      (project_at_millis
                         (enrich_at uuid4 utcnow (uuid_draws w + i)
                            (clock_reads w + i) pc))) pcs ∧
    status_checks w' = status_checks w ∧
    uuid_draws w' = uuid_draws w + length pcs ∧
    clock_reads w' = clock_reads w + length pcs ∧
    oid_draws w' = oid_draws w + length pcs.
Proof.
  destruct sample_projects_creates as (pcs & Hs & Hc).
  destruct (seed_loop pcs (set_projects [] w))
    as (w' & Hrun & Hp & Hst & Hu & Hk & Ho).
  exists pcs, w'. split; [done|]. split; [done|].
  split; [|by rewrite Hp].
  unfold create_sample_projects.
  unfold mbind at 1. unfold M_bind, bind at 1.
  unfold delete_many. cbn [get_coll]. rewrite delete_many_all.
  cbn [set_coll]. rewrite Hs.
  rewrite (bind_Return _ _ _ _ _ Hrun). unfold ret.
  by rewrite length_imap.
Qed.

End Seed.

(** ** Consistency is kept by every route that writes *)

Section Consistency.

Context (uuid4 : nat → string) (utcnow : nat → Z)
        (datetime_of : value → option Z).

Lemma consistent_empty : consistent uuid4 empty_world.
Proof.
  split; [split; constructor|]. intros d s Hd. by apply elem_of_nil in Hd.
Qed.

Lemma ids_issued_mono (w w' : World) :
  projects w' = projects w → (uuid_draws w ≤ uuid_draws w')%nat →
  ids_issued uuid4 w → ids_issued uuid4 w'.
Proof.
  intros Hp Hle H d s Hd Hs. rewrite Hp in Hd.
  destruct (H d s Hd Hs) as (k & Hk & ->). exists k. split; [lia|done].
Qed.

Lemma consistent_create_project pc w :
  consistent uuid4 w →
  consistent uuid4 (snd (create_project uuid4 utcnow datetime_of pc w)).
Proof.
  intros [[Hp Hs] Hids]. rewrite create_project_eq. cbn [snd].
  split; [split|]; cbn [projects status_checks uuid_draws].
  - apply Forall_app. split; [done|]. repeat constructor.
    by eexists _, _.
  - done.
  - intros d s Hd Hlook. cbn [projects uuid_draws] in Hd |- *.
    apply elem_of_app in Hd as [Hd|Hd].
    + destruct (Hids d s Hd Hlook) as (k & Hk & ->). exists k.
      split; [lia|done].
    + apply list_elem_of_singleton in Hd as ->.
      rewrite stored_project_id in Hlook. injection Hlook as <-.
      exists (uuid_draws w). split; [lia|done].
Qed.

Lemma consistent_POST_projects body w :
  consistent uuid4 w →
  consistent uuid4 (snd (POST_projects uuid4 utcnow datetime_of body w)).
Proof.
  intros H. unfold POST_projects.
  destruct (ProjectCreate.validate body) as [pc|]; [|done].
  by apply consistent_create_project.
Qed.

Lemma consistent_POST_status body w :
  consistent uuid4 w →
  consistent uuid4 (snd (POST_status uuid4 utcnow datetime_of body w)).
Proof.
  intros H. unfold POST_status.
  destruct (StatusCheckCreate.validate body) as [x|]; [|done].
  destruct H as [[Hp Hs] Hids]. rewrite create_status_check_eq. cbn [snd].
  split; [split|]; cbn [projects status_checks].
  - done.
  - apply Forall_app. split; [done|]. repeat constructor. by eexists _, _.
  - eapply ids_issued_mono; [| |exact Hids]; cbn; [done|lia].
Qed.

Lemma delete_one_subseteq q (coll : list dict) d :
  d ∈ fst (Collection.delete_one q coll) → d ∈ coll.
Proof.
  induction coll as [|d' coll IH]; simpl; [done|].
  destruct (matches q d').
  - simpl. apply list_elem_of_further.
  - destruct (Collection.delete_one q coll) as [rest n]. simpl in *.
    intros Hd. apply elem_of_cons in Hd as [->|Hd].
    + apply list_elem_of_here.
    + by apply list_elem_of_further, IH.
Qed.

Lemma consistent_delete_project pid w :
  consistent uuid4 w → consistent uuid4 (snd (delete_project pid w)).
Proof.
  intros [[Hp Hs] Hids]. rewrite delete_project_eq.
  destruct (Collection.delete_one _ _) as [docs n] eqn:Hdel. cbn [snd].
  assert (Hsub : ∀ d, d ∈ docs → d ∈ projects w).
  { intros d Hd. apply (delete_one_subseteq (q_eq "id" pid)).
    by rewrite Hdel. }
  split; [split|]; cbn [projects status_checks set_projects].
  - apply Forall_forall. intros d Hd.
    exact (proj1 (Forall_forall _ _) Hp d (Hsub d Hd)).
  - done.
  - intros d s Hd Hlook. exact (Hids d s (Hsub d Hd) Hlook).
Qed.

Lemma consistent_create_sample_projects w :
  consistent uuid4 w →
  consistent uuid4 (snd (create_sample_projects uuid4 utcnow datetime_of w)).
Proof.
  intros [[_ Hs] _].
  destruct (create_sample_projects_eq uuid4 utcnow datetime_of w)
    as (pcs & w' & _ & _ & -> & Hp & Hst & Hu & _ & _).
  cbn [snd]. split; [split|].
  - rewrite Hp. apply Forall_forall. intros d Hd.
    apply elem_of_lookup_imap in Hd as (i & pc & -> & _). by eexists _, _.
  - by rewrite Hst.
  - intros d s Hd Hlook. rewrite Hp in Hd.
    apply elem_of_lookup_imap in Hd as (i & pc & -> & Hi).
    rewrite stored_project_id in Hlook. injection Hlook as <-.
    apply lookup_lt_Some in Hi.
    exists (uuid_draws w + i). split; [lia|done].
Qed.

End Consistency.

(** ** The claims *)

Lemma find_one_snoc q (coll : list dict) d :
  count_matching q coll = 0 → matches q d = true →
  Collection.find_one q (coll ++ [d]) = Some d.
Proof.
  unfold Collection.find_one, count_matching.
  induction coll as [|d' coll IH]; simpl; intros H Hm.
  - by rewrite Hm.
  - destruct (matches q d'); [done|]. by apply IH.
Qed.

(** Reading a body into [ProjectCreate] looks at the keys of the class
    only. *)
Lemma validate_ext (kw kw' : dict) :
  (∀ k, k ∈ ProjectCreate.fields → kw' !! k = kw !! k) →
  ProjectCreate.validate (VDict kw') = ProjectCreate.validate (VDict kw).
Proof.
  intros H. unfold ProjectCreate.validate, required, defaulted.
  rewrite !H; [done|unfold ProjectCreate.fields; set_solver..].
Qed.


Lemma validate_optional_default (kw : dict) pc :
  ProjectCreate.validate (VDict kw) = Some pc →
  (kw !! "demo_url" = None → ProjectCreate.demo_url pc = None) ∧
  (kw !! "github_url" = None → ProjectCreate.github_url pc = None).
Proof.
  unfold ProjectCreate.validate, required, defaulted. intros H.
  split; intros Hf; rewrite Hf in H; simplify_option_eq; done.
Qed.

Section Claims.

Context (uuid4 : nat → string) (utcnow : nat → Z)
        (datetime_of : value → option Z).

Lemma POST_projects_valid body pc w :
  ProjectCreate.validate body = Some pc →
  POST_projects uuid4 utcnow datetime_of body w
  = (Return (enrich uuid4 utcnow pc w),
     mkWorld
       (projects w
          ++ [stored_project (oid_draws w)
                (project_at_millis (enrich uuid4 utcnow pc w))])
       (status_checks w)
       (S (uuid_draws w)) (S (clock_reads w)) (S (oid_draws w))).
Proof.
  intros H. unfold POST_projects. rewrite H. apply create_project_eq.
Qed.

(** Fetching the id that a create request was answered with finds the
    document that the request stored. *)
Lemma get_created_project body pc w :
  Inj (=) (=) uuid4 →
  consistent uuid4 w →
  ProjectCreate.validate body = Some pc →
  get_project uuid4 utcnow datetime_of (uuid4 (uuid_draws w))
    (snd (POST_projects uuid4 utcnow datetime_of body w))
  = (Return (project_at_millis (enrich uuid4 utcnow pc w)),
     snd (POST_projects uuid4 utcnow datetime_of body w)).
Proof.
  intros Hinj Hc Hv. rewrite (POST_projects_valid _ _ w Hv). cbn [snd].
  erewrite get_project_found; [apply Project_init_stored|].
  cbn [projects]. apply find_one_snoc.
  - by apply fresh_id_unmatched.
  - rewrite matches_stored_project. by apply bool_decide_eq_true.
Qed.


(** C6, as the code has it. For every valid ProjectCreate input, in a
    consistent world, fetching the project by the id that creation returned
    yields a record equal to the creation response in id, title,
    description, tech_stack, image_url, demo_url, github_url, category and
    featured; its created_date is that of the response cut to the
    millisecond, which is what the store keeps of it: at most 999
    microseconds earlier, and the same when the clock read a whole number
    of milliseconds, in which case the two records are equal. *)
Theorem create_then_get (body : value) (pc : ProjectCreate.t) (w : World) :
  Inj (=) (=) uuid4 →
  consistent uuid4 w →
  ProjectCreate.validate body = Some pc →
  ∃ p p' w',
    POST_projects uuid4 utcnow datetime_of body w = (Return p, w') ∧
    get_project uuid4 utcnow datetime_of (Project.id p) w' = (Return p', w') ∧
    Project.id p' = Project.id p ∧
    Project.title p' = Project.title p ∧
    Project.description p' = Project.description p ∧
    Project.tech_stack p' = Project.tech_stack p ∧
    Project.image_url p' = Project.image_url p ∧
    Project.demo_url p' = Project.demo_url p ∧
    Project.github_url p' = Project.github_url p ∧
    Project.category p' = Project.category p ∧
    Project.featured p' = Project.featured p ∧
    Project.created_date p = utcnow (clock_reads w) ∧
    Project.created_date p' = (utcnow (clock_reads w) `div` 1000 * 1000)%Z ∧
    (Project.created_date p' ≤ Project.created_date p
     < Project.created_date p' + 1000)%Z ∧
    (p' = p ↔ (utcnow (clock_reads w) `mod` 1000 = 0)%Z).
Proof.
  intros Hinj Hc Hv.
  pose proof (get_created_project body pc w Hinj Hc Hv) as Hget.
  rewrite (POST_projects_valid _ _ w Hv) in Hget. cbn [snd] in Hget.
  eexists _, _, _. split; [by apply POST_projects_valid|].
  split; [exact Hget|].
  cbn [project_at_millis enrich enrich_at Project.id Project.created_date
       Project.title Project.description Project.tech_stack
       Project.image_url Project.category Project.demo_url
       Project.github_url Project.featured].
  do 11 (split; [reflexivity|]).
  split.
  { fold (to_millis (utcnow (clock_reads w))).
    pose proof (Z.div_mod (utcnow (clock_reads w)) 1000).
    pose proof (Z.mod_pos_bound (utcnow (clock_reads w)) 1000).
    unfold to_millis. lia. }
  split; intros H.
  - injection H as H. by apply to_millis_whole.
  - by apply project_at_millis_whole.
Qed.

(** C10. A project-create payload with fields outside the ProjectCreate
    shape (a client's id or created_date among them) is accepted exactly
    as the payload without them: same answer, same stored record, whose id
    and created_date are the server's (the stored created_date is the
    reading of the server's clock, kept to the millisecond). *)
Theorem extra_fields_ignored (kw kw' : dict) (pc : ProjectCreate.t) (w : World) :
  ProjectCreate.validate (VDict kw) = Some pc →
  (∀ k, k ∈ ProjectCreate.fields → kw' !! k = kw !! k) →
  POST_projects uuid4 utcnow datetime_of (VDict kw') w
  = POST_projects uuid4 utcnow datetime_of (VDict kw) w ∧
  ∃ p w',
    POST_projects uuid4 utcnow datetime_of (VDict kw') w = (Return p, w') ∧
    projects w'
    = projects w ++ [stored_project (oid_draws w) (project_at_millis p)] ∧
    Project.id p = uuid4 (uuid_draws w) ∧
    Project.created_date p = utcnow (clock_reads w) ∧
    stored_project (oid_draws w) (project_at_millis p) !! "id"
    = Some (VStr (uuid4 (uuid_draws w))) ∧
    stored_project (oid_draws w) (project_at_millis p) !! "created_date"
    = Some (VDatetime (to_millis (utcnow (clock_reads w)))).
Proof.
  intros Hv Hext.
  assert (Hv' : ProjectCreate.validate (VDict kw') = Some pc).
  { by rewrite (validate_ext kw kw' Hext). }
  rewrite (POST_projects_valid _ _ w Hv), (POST_projects_valid _ _ w Hv').
  split; [done|]. eexists _, _. split; [done|].
  cbn [projects enrich enrich_at Project.id Project.created_date].
  split; [done|]. split; [done|]. split; [done|].
  split; [apply stored_project_id|].
  unfold stored_project, Project.dict_of. by simplify_map_eq.
Qed.

(** Setting a required string field of a valid body to any string, the
    empty one included, leaves the body valid. *)
Lemma validate_set_str (kw : dict) pc k s :
  ProjectCreate.validate (VDict kw) = Some pc →
  k ∈ ["title"; "description"; "image_url"; "category"] →
  ∃ pc', ProjectCreate.validate (VDict (<[k := VStr s]> kw)) = Some pc' ∧
         ∀ oid n c,
           stored_project oid
             (project_at_millis (enrich_at uuid4 utcnow n c pc')) !! k
           = Some (VStr s).
Proof.
  intros Hv Hk.
  unfold ProjectCreate.validate, required, defaulted in *.
  repeat (apply elem_of_cons in Hk as [->|Hk]); [..|by apply elem_of_nil in Hk].
  all: rewrite lookup_insert_eq, !lookup_insert_ne by done.
  all: simplify_option_eq.
  all: eexists; split; [reflexivity|]; intros oid n c.
  all: unfold stored_project, Project.dict_of, project_at_millis, enrich_at;
    by simplify_map_eq.
Qed.

Lemma stored_project_category oid p :
  stored_project oid p !! "category" = Some (VStr (Project.category p)).
Proof. unfold stored_project, Project.dict_of. by simplify_map_eq. Qed.

Lemma stored_project_optionals oid p :
  stored_project oid p !! "demo_url"
  = Some (of_optional_str (Project.demo_url p)) ∧
  stored_project oid p !! "github_url"
  = Some (of_optional_str (Project.github_url p)).
Proof. unfold stored_project, Project.dict_of. by simplify_map_eq. Qed.

(** The seed route reads nothing of the catalog it finds. *)
Lemma bind_delete_many_all {B} (k : nat → M B) w :
  (delete_many db_projects q_all ≫= k) w
  = k (length (projects w)) (set_projects [] w).
Proof.
  unfold mbind, M_bind, bind, delete_many. cbn [get_coll].
  by rewrite delete_many_all.
Qed.

Lemma create_sample_projects_forgets w :
  create_sample_projects uuid4 utcnow datetime_of w
  = create_sample_projects uuid4 utcnow datetime_of (set_projects [] w).
Proof.
  unfold create_sample_projects. by rewrite !bind_delete_many_all.
Qed.

(** C2. Whatever the catalog holds, the seed operation answers with six
    projects and leaves exactly their six documents in the catalog (each
    with its timestamp kept to the millisecond), with
    the categories Web Application, Portfolio, E-commerce, Data Analytics,
    Game Development and Blockchain; the result does not depend on the
    former catalog (it is that of seeding an empty one), the status checks
    are untouched, and seeding once more again leaves six. *)
Theorem seed_resets_catalog (w : World) :
  ∃ r w',
    create_sample_projects uuid4 utcnow datetime_of w = (Return r, w') ∧
    length (projects w') = 6 ∧
    Forall2 (λ d p, ∃ oid, d = stored_project oid (project_at_millis p))
            (projects w') (seeded_projects r) ∧
    (λ d : dict, d !! "category") <$> projects w'
    = [ Some (VStr "Web Application"); Some (VStr "Portfolio");
        Some (VStr "E-commerce"); Some (VStr "Data Analytics");
        Some (VStr "Game Development"); Some (VStr "Blockchain") ] ∧
    Project.category <$> seeded_projects r
    = [ "Web Application"; "Portfolio"; "E-commerce"; "Data Analytics";
        "Game Development"; "Blockchain" ] ∧
    seeded_message r = "Created 6 sample projects" ∧
    create_sample_projects uuid4 utcnow datetime_of w
    = create_sample_projects uuid4 utcnow datetime_of (set_projects [] w) ∧
    status_checks w' = status_checks w ∧
    length (projects (snd (create_sample_projects uuid4 utcnow datetime_of w'))) = 6.
Proof.
  destruct (create_sample_projects_eq uuid4 utcnow datetime_of w)
    as (pcs & w' & _ & Hcat & Hrun & Hp & Hst & _).
  assert (Hlen : length pcs = 6).
  { rewrite <- (length_fmap ProjectCreate.category), Hcat. done. }
  exists (mkSeeded
            ("Created " +:+ pretty (length pcs) +:+ " sample projects")
            (imap (λ i, enrich_at uuid4 utcnow
                          (uuid_draws w + i) (clock_reads w + i)) pcs)), w'.
  split; [done|]. cbn [seeded_projects seeded_message].
  split; [by rewrite Hp, length_imap|].
  split.
  { rewrite Hp. apply Forall2_same_length_lookup_2.
    - by rewrite !length_imap.
    - intros i d p. rewrite !list_lookup_imap.
      destruct (pcs !! i); [|done]. cbn. intros [= <-] [= <-]. eauto. }
  split.
  { transitivity ((λ c, Some (VStr c)) <$> (ProjectCreate.category <$> pcs));
      [|by rewrite Hcat].
    rewrite Hp, fmap_imap, <- list_fmap_compose, <- imap_const.
    apply imap_ext. intros i pc _. cbn.
    by rewrite stored_project_category. }
  split.
  { rewrite <- Hcat, fmap_imap, <- imap_const. by apply imap_ext. }
  split; [rewrite Hlen; vm_compute; reflexivity|].
  split; [apply create_sample_projects_forgets|].
  split; [done|].
  destruct (create_sample_projects_eq uuid4 utcnow datetime_of w')
    as (pcs2 & w2 & _ & Hcat2 & -> & Hp2 & _).
  cbn [snd]. rewrite Hp2, length_imap.
  rewrite <- (length_fmap ProjectCreate.category), Hcat2. done.
Qed.

(** C3. Deleting by id answers 404 exactly when no document of the
    catalog matches the id, and then changes nothing; when exactly one
    matches, it answers with the confirmation message and removes that
    document, so that fetching the id afterwards answers 404. *)
Theorem delete_project_404_iff_no_match (project_id : string) (w : World) :
  (fst (delete_project project_id w)
   = Raise (HTTPException 404 "Project not found")
   ↔ count_matching (q_eq "id" project_id) (projects w) = 0) ∧
  (status_of (fst (delete_project project_id w)) = 404
   ↔ count_matching (q_eq "id" project_id) (projects w) = 0) ∧
  (count_matching (q_eq "id" project_id) (projects w) = 0 →
   snd (delete_project project_id w) = w) ∧
  (count_matching (q_eq "id" project_id) (projects w) = 1 →
   ∃ w',
     delete_project project_id w
     = (Return {[ "message" := VStr "Project deleted successfully" ]}, w') ∧
     projects w'
     = List.filter (λ d, negb (matches (q_eq "id" project_id) d)) (projects w) ∧
     status_checks w' = status_checks w ∧
     get_project uuid4 utcnow datetime_of project_id w'
     = (Raise (HTTPException 404 "Project not found"), w')).
Proof.
  rewrite delete_project_eq.
  destruct (count_matching (q_eq "id" project_id) (projects w)) as [|n] eqn:Hn.
  - rewrite (delete_one_zero _ _ Hn). cbn [fst snd Nat.eqb status_of].
    rewrite set_projects_same. repeat split; try done.
  - assert (Hpos : count_matching (q_eq "id" project_id) (projects w) ≠ 0)
      by lia.
    destruct (delete_one_pos _ _ Hpos) as [Hcnt Hrest].
    pose proof (delete_one_single (q_eq "id" project_id) (projects w)) as Hone.
    destruct (Collection.delete_one _ _) as [docs k]. cbn [fst snd] in *.
    subst k. cbn [Nat.eqb status_of].
    split; [split; [done|lia]|]. split; [split; [done|lia]|].
    split; [lia|]. intros [= ->]. eexists. split; [done|].
    cbn [projects status_checks set_projects]. rewrite Hn in Hone.
    rewrite (Hone eq_refl). split; [done|]. split; [done|].
    apply get_project_not_found. cbn [projects].
    apply count_matching_filter_out.
Qed.

(** C4. In a catalog of stored projects, fetching by id answers 200 with a
    stored Project of that id when one exists (the first in insertion
    order), and 404 when none exists; the world is left as it was. *)
Theorem get_project_200_or_404 (project_id : string) (w : World) :
  Forall is_project_doc (projects w) →
  ((∃ oid p, stored_project oid p ∈ projects w ∧ Project.id p = project_id) →
   ∃ oid p,
     get_project uuid4 utcnow datetime_of project_id w = (Return p, w) ∧
     status_of (fst (get_project uuid4 utcnow datetime_of project_id w)) = 200 ∧
     Project.id p = project_id ∧
     stored_project oid p ∈ projects w) ∧
  ((∀ oid p, stored_project oid p ∈ projects w → Project.id p ≠ project_id) →
   get_project uuid4 utcnow datetime_of project_id w
   = (Raise (HTTPException 404 "Project not found"), w) ∧
   status_of (fst (get_project uuid4 utcnow datetime_of project_id w)) = 404).
Proof.
  intros Hwf. split.
  - intros (oid & p & Hin & Hid).
    destruct (Collection.find_one (q_eq "id" project_id) (projects w))
      as [d|] eqn:Hfind.
    + pose proof (find_one_Some _ _ _ Hfind) as [Hd Hm].
      pose proof (proj1 (Forall_forall _ _) Hwf d Hd) as (oid' & p' & ->).
      rewrite matches_stored_project in Hm. apply bool_decide_eq_true in Hm.
      exists oid', p'.
      rewrite (get_project_found _ _ _ _ _ _ Hfind), Project_init_stored.
      done.
    + apply find_one_None in Hfind.
      pose proof (proj1 (count_matching_zero _ _) Hfind _ Hin) as Hm.
      rewrite matches_stored_project in Hm.
      by apply bool_decide_eq_false in Hm.
  - intros Hnone.
    rewrite get_project_not_found; [done|].
    apply count_matching_zero. intros d Hd.
    pose proof (proj1 (Forall_forall _ _) Hwf d Hd) as (oid & p & ->).
    rewrite matches_stored_project. apply bool_decide_eq_false.
    by apply (Hnone oid).
Qed.

(** C5. A create request whose body lacks a required field, or holds a
    value of another type there, is answered with 422 (a 4xx validation
    error) and the world, both collections included, is left as it was:
    nothing is stored. *)
Theorem invalid_create_rejected (kw : dict) (w : World) :
  ((missing_or_ill_typed as_str "title" kw ∨
    missing_or_ill_typed as_str "description" kw ∨
    missing_or_ill_typed as_list_str "tech_stack" kw ∨
    missing_or_ill_typed as_str "image_url" kw ∨
    missing_or_ill_typed as_str "category" kw) →
   POST_projects uuid4 utcnow datetime_of (VDict kw) w = (Raise RequestValidationError, w) ∧
   status_of (fst (POST_projects uuid4 utcnow datetime_of (VDict kw) w)) = 422) ∧
  (missing_or_ill_typed as_str "client_name" kw →
   POST_status uuid4 utcnow datetime_of (VDict kw) w = (Raise RequestValidationError, w) ∧
   status_of (fst (POST_status uuid4 utcnow datetime_of (VDict kw) w)) = 422).
Proof.
  split.
  - intros H.
    assert (Hv : ProjectCreate.validate (VDict kw) = None).
    { unfold ProjectCreate.validate.
      repeat match type of H with
             | _ ∨ _ => destruct H as [H|H]
             end;
        apply required_None_iff in H;
        repeat match goal with
               | |- (?m ≫= _) = None =>
                   destruct m eqn:?; cbn; [try congruence|done]
               end. }
    unfold POST_projects. by rewrite Hv.
  - intros H. apply required_None_iff in H.
    unfold POST_status, StatusCheckCreate.validate. by rewrite H.
Qed.

(** C7, as the code has it. A required string field may be empty: setting
    title, description, image_url or category of a valid body to the empty
    string leaves it valid; the create-project operation accepts it and
    stores a record that holds the empty string in that field. *)
Theorem empty_required_string_accepted (kw : dict) (pc : ProjectCreate.t)
    (k : string) (w : World) :
  ProjectCreate.validate (VDict kw) = Some pc →
  k ∈ ["title"; "description"; "image_url"; "category"] →
  ∃ p w',
    POST_projects uuid4 utcnow datetime_of (VDict (<[k := VStr ""]> kw)) w = (Return p, w') ∧
    status_of (fst (POST_projects uuid4 utcnow datetime_of (VDict (<[k := VStr ""]> kw)) w))
    = 200 ∧
    projects w'
    = projects w ++ [stored_project (oid_draws w) (project_at_millis p)] ∧
    stored_project (oid_draws w) (project_at_millis p) !! k = Some (VStr "").
Proof.
  intros Hv Hk.
  destruct (validate_set_str kw pc k "" Hv Hk) as (pc' & Hv' & Hlook).
  rewrite (POST_projects_valid _ _ w Hv'). eexists _, _.
  split; [done|]. split; [done|]. split; [done|]. apply Hlook.
Qed.

(** C8, as the code has it. When a valid body supplies neither demo_url nor
    github_url, the stored document and the answer both carry the two keys,
    each with the value None (JSON null). *)
Theorem absent_optionals_stored_as_null (kw : dict) (pc : ProjectCreate.t)
    (w : World) :
  ProjectCreate.validate (VDict kw) = Some pc →
  kw !! "demo_url" = None →
  kw !! "github_url" = None →
  ∃ p w',
    POST_projects uuid4 utcnow datetime_of (VDict kw) w = (Return p, w') ∧
    projects w'
    = projects w ++ [stored_project (oid_draws w) (project_at_millis p)] ∧
    stored_project (oid_draws w) (project_at_millis p) !! "demo_url"
    = Some VNone ∧
    stored_project (oid_draws w) (project_at_millis p) !! "github_url"
    = Some VNone ∧
    response_json p !! "demo_url" = Some VNone ∧
    response_json p !! "github_url" = Some VNone.
Proof.
  intros Hv Hd Hg.
  destruct (validate_optional_default kw pc Hv) as [Hd' Hg'].
  specialize (Hd' Hd). specialize (Hg' Hg).
  rewrite (POST_projects_valid _ _ w Hv). eexists _, _.
  split; [done|]. split; [done|].
  destruct (stored_project_optionals (oid_draws w)
              (project_at_millis (enrich uuid4 utcnow pc w)))
    as [H1 H2].
  rewrite H1, H2.
  cbn [project_at_millis enrich enrich_at Project.demo_url Project.github_url].
  rewrite Hd', Hg'. split; [done|]. split; [done|].
  unfold response_json, Project.dict_of, enrich, enrich_at.
  cbn [Project.demo_url Project.github_url]. rewrite Hd', Hg'.
  by simplify_map_eq.
Qed.

(** C9. In a well-formed world the two list routes never fail and change
    nothing: each answers with the objects of the first 1000 documents of
    its collection, in order (the routes take no argument, so nothing
    beyond the cap can be asked for), and with the empty sequence when the
    collection is empty. *)
Theorem list_routes_capped (w : World) :
  well_formed w →
  ∃ ps ss,
    get_projects uuid4 utcnow datetime_of w = (Return ps, w) ∧
    get_status_checks uuid4 utcnow datetime_of w = (Return ss, w) ∧
    Forall2 (λ d p, ∃ oid, d = stored_project oid p)
            (take 1000 (projects w)) ps ∧
    Forall2 (λ d s, ∃ oid, d = stored_status oid s)
            (take 1000 (status_checks w)) ss ∧
    length ps = 1000 `min` length (projects w) ∧
    length ss = 1000 `min` length (status_checks w) ∧
    (projects w = [] → ps = []) ∧
    (status_checks w = [] → ss = []).
Proof.
  intros [Hp Hs].
  destruct (for_each_stored_projects uuid4 utcnow datetime_of
              (take 1000 (projects w)) w (Forall_take _ _ _ Hp))
    as (ps & Hps & HFp).
  destruct (for_each_stored_status uuid4 utcnow datetime_of
              (take 1000 (status_checks w)) w (Forall_take _ _ _ Hs))
    as (ss & Hss & HFs).
  exists ps, ss.
  split.
  { unfold get_projects.
    by rewrite (bind_Return (find_to_list db_projects 1000) _ w
                  (take 1000 (projects w)) w eq_refl). }
  split.
  { unfold get_status_checks.
    by rewrite (bind_Return (find_to_list db_status_checks 1000) _ w
                  (take 1000 (status_checks w)) w eq_refl). }
  split; [done|]. split; [done|].
  split; [by rewrite <- (Forall2_length _ _ _ HFp), length_take|].
  split; [by rewrite <- (Forall2_length _ _ _ HFs), length_take|].
  split.
  - intros E. rewrite E, take_nil in HFp. by apply Forall2_nil_inv_l in HFp.
  - intros E. rewrite E, take_nil in HFs. by apply Forall2_nil_inv_l in HFs.
Qed.

End Claims.

(** ** The handlers on the example requests *)

Lemma uuid_of_inj : Inj (=) (=) uuid_of.
Proof.
  intros m n H. unfold uuid_of in H.
  apply (inj (String.app "uuid-")) in H. by apply (inj pretty) in H.
Qed.

Lemma example_body_valid :
  ProjectCreate.validate (VDict example_body) = Some example_create.
Proof. vm_compute. reflexivity. Qed.

Lemma example_world_consistent : consistent uuid_of example_world.
Proof. apply consistent_POST_projects, consistent_empty. Qed.

(** The one project of [example_world] was stamped with the first reading
    of the clock, a whole number of milliseconds, which the store keeps as
    it is. *)
Lemma example_world_projects :
  projects example_world
  = [stored_project 0 (enrich uuid_of clock_of example_create empty_world)].
Proof.
  unfold example_world.
  by rewrite (POST_projects_valid _ _ _ _ _ empty_world example_body_valid).
Qed.

(** What a [bool] field reads: the number 1 and the text [Yes] as true, the
    text [off] as false, and not the number 2. *)
Lemma featured_is_read_leniently :
  ProjectCreate.featured
    <$> ProjectCreate.validate (VDict (<[ "featured" := VInt 1 ]> example_body))
  = Some true ∧
  ProjectCreate.featured
    <$> ProjectCreate.validate
          (VDict (<[ "featured" := VStr "Yes" ]> example_body))
  = Some true ∧
  ProjectCreate.featured
    <$> ProjectCreate.validate
          (VDict (<[ "featured" := VStr "off" ]> example_body))
  = Some false ∧
  ProjectCreate.validate (VDict (<[ "featured" := VInt 2 ]> example_body))
  = None ∧
  status_of (fst (POST_projects uuid_of clock_of epoch_of
                    (VDict (<[ "featured" := VInt 1 ]> example_body))
                    empty_world)) = 200.
Proof. repeat split; vm_compute; reflexivity. Qed.

(** A document of the catalog whose created_date is a number is read with
    the library's parser: under [epoch_of], 0 is the epoch. *)
Lemma number_is_read_as_created_date :
  ∃ p,
    get_project uuid_of clock_of epoch_of "uuid-0"
      (mkWorld [<[ "created_date" := VInt 0 ]> (stored_project 0 example_project)]
         [] 1 1 1)
    = (Return p,
       mkWorld [<[ "created_date" := VInt 0 ]> (stored_project 0 example_project)]
         [] 1 1 1) ∧
    Project.created_date p = 0%Z.
Proof. eexists. split; [vm_compute; reflexivity|reflexivity]. Qed.

Lemma example_body_with_id_agrees k :
  k ∈ ProjectCreate.fields → example_body_with_id !! k = example_body !! k.
Proof.
  unfold ProjectCreate.fields, example_body_with_id. intros Hk.
  repeat (apply elem_of_cons in Hk as [->|Hk]);
    [by rewrite !lookup_insert_ne by done..|by apply elem_of_nil in Hk].
Qed.

Lemma example_world_counters :
  uuid_draws example_world = 1 ∧ clock_reads example_world = 1 ∧
  oid_draws example_world = 1.
Proof.
  unfold example_world.
  by rewrite (POST_projects_valid _ _ _ _ _ empty_world example_body_valid).
Qed.


Lemma get_project_example :
  Forall is_project_doc (projects example_world) ∧
  ∃ p, get_project uuid_of clock_of epoch_of "uuid-0" example_world
       = (Return p, example_world) ∧
       Project.id p = "uuid-0".
Proof.
  pose proof (proj1 (proj1 example_world_consistent)) as Hwf.
  split; [exact Hwf|].
  destruct (proj1 (get_project_200_or_404 uuid_of clock_of epoch_of "uuid-0"
                     example_world Hwf))
    as (oid & p & Hrun & _ & Hid & _).
  - exists 0, (enrich uuid_of clock_of example_create empty_world).
    rewrite example_world_projects. split; [apply list_elem_of_here|].
    reflexivity.
  - exists p. split; [exact Hrun|exact Hid].
Defined.

(** Created in [example_world], where the clock reads one microsecond past
    a whole millisecond, and fetched. *)
Lemma create_then_get_example :
  consistent uuid_of example_world ∧
  ∃ p p' w',
    POST_projects uuid_of clock_of epoch_of (VDict example_body) example_world
    = (Return p, w') ∧
    get_project uuid_of clock_of epoch_of (Project.id p) w' = (Return p', w') ∧
    Project.title p' = Project.title p ∧
    Project.created_date p' = 1700000000000000%Z.
Proof.
  destruct example_world_counters as (_ & Hk & _).
  split; [exact example_world_consistent|].
  destruct (create_then_get uuid_of clock_of epoch_of (VDict example_body)
              example_create example_world uuid_of_inj
              example_world_consistent example_body_valid)
    as (p & p' & w' & Hrun & Hget & _ & Ht & _ & _ & _ & _ & _ & _ & _ & _
        & Hdate & _).
  exists p, p', w'. split; [exact Hrun|]. split; [exact Hget|].
  split; [exact Ht|]. rewrite Hk in Hdate. exact Hdate.
Defined.

Lemma empty_required_string_example :
  ProjectCreate.validate (VDict example_body) = Some example_create ∧
  ∃ p w',
    POST_projects uuid_of clock_of epoch_of (VDict example_body_empty_title)
      empty_world
    = (Return p, w') ∧
    stored_project 0 (project_at_millis p) !! "title" = Some (VStr "").
Proof.
  split; [exact example_body_valid|].
  destruct (empty_required_string_accepted uuid_of clock_of epoch_of example_body
              example_create "title" empty_world example_body_valid)
    as (p & w' & Hrun & _ & _ & Hlook).
  - apply list_elem_of_here.
  - exists p, w'. split; [exact Hrun|exact Hlook].
Defined.

Lemma absent_optionals_example :
  example_body !! "demo_url" = None ∧
  example_body !! "github_url" = None ∧
  ∃ p w',
    POST_projects uuid_of clock_of epoch_of (VDict example_body) empty_world
    = (Return p, w') ∧
    response_json p !! "demo_url" = Some VNone.
Proof.
  split; [reflexivity|]. split; [reflexivity|].
  destruct (absent_optionals_stored_as_null uuid_of clock_of epoch_of example_body
              example_create empty_world example_body_valid
              eq_refl eq_refl)
    as (p & w' & Hrun & _ & _ & _ & Hresp & _).
  exists p, w'. split; [exact Hrun|exact Hresp].
Defined.

Lemma list_routes_example :
  well_formed example_world ∧
  ∃ ps, get_projects uuid_of clock_of epoch_of example_world = (Return ps, example_world) ∧
        length ps = 1.
Proof.
  pose proof (proj1 example_world_consistent) as Hwf.
  split; [exact Hwf|].
  destruct (list_routes_capped uuid_of clock_of epoch_of example_world Hwf)
    as (ps & ss & Hrun & _ & _ & _ & Hlen & _).
  exists ps. split; [exact Hrun|].
  rewrite Hlen, example_world_projects. reflexivity.
Defined.

Lemma extra_fields_example :
  ProjectCreate.validate (VDict example_body) = Some example_create ∧
  example_body_with_id !! "id" = Some (VStr "chosen-by-the-client") ∧
  ∃ p w',
    POST_projects uuid_of clock_of epoch_of (VDict example_body_with_id) empty_world
    = (Return p, w') ∧
    Project.id p = "uuid-0".
Proof.
  split; [exact example_body_valid|]. split; [reflexivity|].
  destruct (extra_fields_ignored uuid_of clock_of epoch_of example_body
              example_body_with_id example_create empty_world
              example_body_valid example_body_with_id_agrees)
    as (_ & p & w' & Hrun & _ & Hid & _).
  exists p, w'. split; [exact Hrun|exact Hid].
Defined.

(** C7, as the claim states it, fails: a body whose title is the empty
    string is answered with 200 and its record is stored. *)
Lemma empty_title_is_stored :
  ∃ p w',
    POST_projects uuid_of clock_of epoch_of (VDict example_body_empty_title) empty_world
    = (Return p, w') ∧
    status_of (fst (POST_projects uuid_of clock_of epoch_of
                      (VDict example_body_empty_title) empty_world)) = 200 ∧
    Project.title p = "" ∧
    projects w' = [stored_project 0 (project_at_millis p)].
Proof.
  assert (Hv : ProjectCreate.validate (VDict example_body_empty_title)
               = Some (ProjectCreate.mk ""
                         (ProjectCreate.description example_create)
                         (ProjectCreate.tech_stack example_create)
                         (ProjectCreate.image_url example_create)
                         None None "Testing" false)).
  { vm_compute. reflexivity. }
  rewrite (POST_projects_valid _ _ _ _ _ empty_world Hv).
  eexists _, _. split; [reflexivity|]. split; [reflexivity|].
  split; reflexivity.
Qed.

(** C8, as the claim states it, fails: for a body without demo_url and
    github_url the stored document and the answer have both keys, with the
    value None. *)
Lemma absent_optional_is_a_null_key :
  example_body !! "demo_url" = None ∧
  example_body !! "github_url" = None ∧
  ∃ p w' d,
    POST_projects uuid_of clock_of epoch_of (VDict example_body) empty_world
    = (Return p, w') ∧
    projects w' = [d] ∧
    d !! "demo_url" = Some VNone ∧
    d !! "github_url" = Some VNone ∧
    response_json p !! "demo_url" = Some VNone ∧
    response_json p !! "github_url" = Some VNone.
Proof.
  split; [reflexivity|]. split; [reflexivity|].
  rewrite (POST_projects_valid _ _ _ _ _ empty_world example_body_valid).
  eexists _, _, _. split; [reflexivity|]. split; [reflexivity|].
  unfold response_json, stored_project, Project.dict_of.
  cbn [enrich enrich_at example_create Project.demo_url Project.github_url
       ProjectCreate.demo_url ProjectCreate.github_url of_optional_str].
  by simplify_map_eq.
Qed.

(** C6, as the claim states it, fails: the project created in
    [example_world] is answered with the created_date that the clock read,
    1700000000000001, and fetched with 1700000000000000; the two records
    differ in that field. *)
Lemma fetched_created_date_differs :
  consistent uuid_of example_world ∧
  ProjectCreate.validate (VDict example_body) = Some example_create ∧
  ∃ p p' w',
    POST_projects uuid_of clock_of epoch_of (VDict example_body) example_world
    = (Return p, w') ∧
    get_project uuid_of clock_of epoch_of (Project.id p) w' = (Return p', w') ∧
    Project.created_date p = 1700000000000001%Z ∧
    Project.created_date p' = 1700000000000000%Z ∧
    p' ≠ p ∧
    response_json p' ≠ response_json p.
Proof.
  destruct example_world_counters as (Hu & Hk & _).
  split; [exact example_world_consistent|]. split; [exact example_body_valid|].
  pose proof (get_created_project uuid_of clock_of epoch_of (VDict example_body)
                example_create example_world uuid_of_inj
                example_world_consistent example_body_valid) as Hget.
  rewrite (POST_projects_valid _ _ _ _ _ example_world example_body_valid)
    in Hget |- *.
  cbn [snd] in Hget.
  eexists _, _, _. split; [reflexivity|]. split; [exact Hget|].
  cbn [project_at_millis enrich enrich_at Project.created_date]. rewrite Hk.
  split; [reflexivity|]. split; [reflexivity|].
  split.
  - intros H. apply (f_equal Project.created_date) in H.
    cbn [project_at_millis enrich enrich_at Project.created_date] in H.
    rewrite Hk in H. discriminate H.
  - unfold response_json. intros H.
    pose proof (Project_init_stored uuid_of clock_of epoch_of 0
                  (project_at_millis
                     (enrich uuid_of clock_of example_create example_world))
                  empty_world) as H1.
    pose proof (Project_init_stored uuid_of clock_of epoch_of 0
                  (enrich uuid_of clock_of example_create example_world)
                  empty_world) as H2.
    unfold stored_project in H1, H2. rewrite H, H2 in H1.
    apply (f_equal (λ o : Outcome Project.t * World,
                      match fst o with
                      | Return a => Project.created_date a
                      | Raise _ => 0%Z
                      end)) in H1.
    cbv beta iota delta [fst project_at_millis enrich enrich_at
                         Project.created_date] in H1.
    rewrite Hk in H1. discriminate H1.
Qed.

(** A body without a title is rejected and the world stays as it is. *)
Lemma missing_title_rejected :
  POST_projects uuid_of clock_of epoch_of (VDict (delete "title" example_body)) example_world
  = (Raise RequestValidationError, example_world).
Proof.
  apply (invalid_create_rejected uuid_of clock_of epoch_of). left.
  unfold missing_or_ill_typed. by rewrite lookup_delete_eq.
Defined.

(** Deleting the one stored project, then fetching it. *)
Lemma delete_then_get_example :
  count_matching (q_eq "id" "uuid-0") (projects example_world) = 1 ∧
  ∃ w', delete_project "uuid-0" example_world
        = (Return {[ "message" := VStr "Project deleted successfully" ]}, w') ∧
        projects w' = [] ∧
        get_project uuid_of clock_of epoch_of "uuid-0" w'
        = (Raise (HTTPException 404 "Project not found"), w').
Proof.
  assert (H1 : count_matching (q_eq "id" "uuid-0") (projects example_world) = 1).
  { rewrite example_world_projects. unfold count_matching. cbn [List.filter].
    by rewrite matches_stored_project. }
  split; [exact H1|].
  destruct (delete_project_404_iff_no_match uuid_of clock_of epoch_of "uuid-0"
              example_world) as (_ & _ & _ & Hdel).
  destruct (Hdel H1) as (w' & Hrun & Hp & _ & Hget).
  exists w'. split; [exact Hrun|]. split; [|exact Hget].
  rewrite Hp, example_world_projects. cbn [List.filter].
  by rewrite matches_stored_project.
Defined.

(** ** What the routes leave alone *)

Lemma fst_answer {A} (m : M A) w : fst (answer m w) = status_of (fst (m w)).
Proof. reflexivity. Qed.

Lemma snd_answer {A} (m : M A) w : snd (answer m w) = snd (m w).
Proof. reflexivity. Qed.

Lemma keeps_ret {A} (a : A) : keeps_collections (ret a).
Proof. by intros w. Qed.

Lemma keeps_raise {A} e : keeps_collections (@raise A e).
Proof. by intros w. Qed.

Lemma keeps_checked {A} (o : option A) : keeps_collections (checked o).
Proof. destruct o; [apply keeps_ret|apply keeps_raise]. Qed.

Lemma keeps_bind {A B} (m : M A) (k : A → M B) :
  keeps_collections m → (∀ a, keeps_collections (k a)) →
  keeps_collections (m ≫= k).
Proof.
  intros Hm Hk w. unfold mbind, M_bind, bind.
  destruct (Hm w) as [H1 H2]. destruct (m w) as [[a|e] w1]; cbn in *.
  - destruct (Hk a w1) as [H3 H4]. by rewrite H3, H4.
  - done.
Qed.

Lemma keeps_for_each {A B} (f : A → M B) (xs : list A) :
  (∀ x, keeps_collections (f x)) → keeps_collections (for_each f xs).
Proof.
  intros Hf. induction xs as [|x xs IH]; cbn [for_each]; [apply keeps_ret|].
  apply keeps_bind; [done|]. intros y.
  apply keeps_bind; [done|]. intros ys. apply keeps_ret.
Qed.

Lemma keeps_find_to_list c n : keeps_collections (find_to_list c n).
Proof. by intros w. Qed.

Lemma keeps_find_one c q : keeps_collections (find_one c q).
Proof. by intros w. Qed.

Section Frames.

Context (uuid4 : nat → string) (utcnow : nat → Z)
        (datetime_of : value → option Z).

Lemma keeps_uuid4_str : keeps_collections (uuid4_str uuid4).
Proof. by intros w. Qed.

Lemma keeps_datetime_utcnow : keeps_collections (datetime_utcnow utcnow).
Proof. by intros w. Qed.

Lemma keeps_field_factory {A} (f : value → option A) (factory : M A) k kw :
  keeps_collections factory → keeps_collections (field_factory f factory k kw).
Proof.
  intros H. unfold field_factory. destruct (kw !! k); [apply keeps_checked|done].
Qed.

Lemma keeps_Project_init kw : keeps_collections (Project_init uuid4 utcnow datetime_of kw).
Proof.
  unfold Project_init, field, field_default.
  repeat (apply keeps_bind;
          [first [apply keeps_field_factory;
                  first [apply keeps_uuid4_str|apply keeps_datetime_utcnow]
                 |apply keeps_checked]
          |intros ?]).
  apply keeps_ret.
Qed.

Lemma keeps_StatusCheck_init kw :
  keeps_collections (StatusCheck_init uuid4 utcnow datetime_of kw).
Proof.
  unfold StatusCheck_init, field, field_default.
  repeat (apply keeps_bind;
          [first [apply keeps_field_factory;
                  first [apply keeps_uuid4_str|apply keeps_datetime_utcnow]
                 |apply keeps_checked]
          |intros ?]).
  apply keeps_ret.
Qed.

Lemma keeps_get_project pid : keeps_collections (get_project uuid4 utcnow datetime_of pid).
Proof.
  unfold get_project. apply keeps_bind; [apply keeps_find_one|].
  intros [doc|]; [|apply keeps_raise].
  destruct (truthy doc); [apply keeps_Project_init|apply keeps_raise].
Qed.

(** X1. The read routes never write: whatever the store holds, also
    documents that no handler could have stored, serving a GET request
    leaves both collections exactly as they were. *)
Theorem get_routes_never_write (r : request) (w : World) :
  is_get r = true →
  projects (snd (serve uuid4 utcnow datetime_of r w)) = projects w ∧
  status_checks (snd (serve uuid4 utcnow datetime_of r w)) = status_checks w.
Proof.
  intros Hr. destruct r; try discriminate Hr; cbn [serve];
    rewrite snd_answer.
  - done.
  - apply (keeps_bind _ _ (keeps_find_to_list _ _)). intros l.
    apply keeps_for_each, keeps_StatusCheck_init.
  - apply (keeps_bind _ _ (keeps_find_to_list _ _)). intros l.
    apply keeps_for_each, keeps_Project_init.
  - apply keeps_get_project.
Qed.

End Frames.

Section Writes.

Context (uuid4 : nat → string) (utcnow : nat → Z)
        (datetime_of : value → option Z).

Lemma POST_status_valid (kw : dict) name w :
  kw !! "client_name" = Some (VStr name) →
  POST_status uuid4 utcnow datetime_of (VDict kw) w
  = (Return (StatusCheck.mk (uuid4 (uuid_draws w)) name (utcnow (clock_reads w))),
     mkWorld
       (projects w)
       (status_checks w
          ++ [stored_status (oid_draws w)
                (status_at_millis
                   (StatusCheck.mk (uuid4 (uuid_draws w)) name
                      (utcnow (clock_reads w))))])
       (S (uuid_draws w)) (S (clock_reads w)) (S (oid_draws w))).
Proof.
  intros H. unfold POST_status, StatusCheckCreate.validate, required.
  rewrite H. cbn [mbind option_bind as_str].
  apply create_status_check_eq.
Qed.

(** X2. A write to one collection never touches the other: creating,
    deleting or seeding projects leaves the status checks as they were, and
    creating a status check leaves the catalog as it was, for every world
    and every body, valid or not. *)
Theorem writes_stay_in_their_collection (body : value) (project_id : string)
    (w : World) :
  status_checks (snd (serve uuid4 utcnow datetime_of (Post_projects body) w))
  = status_checks w ∧
  status_checks (snd (serve uuid4 utcnow datetime_of (Delete_project project_id) w))
  = status_checks w ∧
  status_checks (snd (serve uuid4 utcnow datetime_of Post_projects_sample w))
  = status_checks w ∧
  projects (snd (serve uuid4 utcnow datetime_of (Post_status body) w)) = projects w.
Proof.
  cbn [serve]. rewrite !snd_answer. refine (conj _ (conj _ (conj _ _))).
  - unfold POST_projects. destruct (ProjectCreate.validate body); [|done].
    by rewrite create_project_eq.
  - rewrite delete_project_eq. by destruct (Collection.delete_one _ _).
  - destruct (create_sample_projects_eq uuid4 utcnow datetime_of w)
      as (pcs & w' & _ & _ & Hrun & _ & Hst & _).
    rewrite Hrun. exact Hst.
  - unfold POST_status. destruct (StatusCheckCreate.validate body); [|done].
    by rewrite create_status_check_eq.
Qed.

(** X3. A status-check body whose client_name is a string, any string and
    beside any other keys, is accepted: the answer is the check with the
    generator's next identifier, the client's name and the clock's reading,
    and exactly its document (with the timestamp kept to the millisecond)
    is appended to the status checks. *)
Theorem create_status_check_enriches (kw : dict) (name : string) (w : World) :
  kw !! "client_name" = Some (VStr name) →
  ∃ s w',
    POST_status uuid4 utcnow datetime_of (VDict kw) w = (Return s, w') ∧
    StatusCheck.id s = uuid4 (uuid_draws w) ∧
    StatusCheck.client_name s = name ∧
    StatusCheck.timestamp s = utcnow (clock_reads w) ∧
    status_checks w'
    = status_checks w ++ [stored_status (oid_draws w) (status_at_millis s)] ∧
    stored_status (oid_draws w) (status_at_millis s) !! "client_name"
    = Some (VStr name) ∧
    projects w' = projects w.
Proof.
  intros H. rewrite (POST_status_valid kw name w H). eexists _, _.
  split; [reflexivity|].
  cbn [StatusCheck.id StatusCheck.client_name StatusCheck.timestamp
       status_checks projects].
  refine (conj eq_refl (conj eq_refl (conj eq_refl (conj eq_refl
            (conj _ eq_refl))))).
  unfold stored_status, StatusCheck.dict_of, status_at_millis.
  by simplify_map_eq.
Qed.

End Writes.

(** ** Listing *)

Lemma for_each_app {A B} (f : A → M B) (l1 l2 : list A) w ys1 w1 ys2 w2 :
  for_each f l1 w = (Return ys1, w1) →
  for_each f l2 w1 = (Return ys2, w2) →
  for_each f (l1 ++ l2) w = (Return (ys1 ++ ys2), w2).
Proof.
  revert w ys1. induction l1 as [|x l1 IH]; intros w ys1 H1 H2.
  - cbn in H1. injection H1 as <- <-. exact H2.
  - cbn [for_each] in H1. apply bind_inv_Return in H1 as (y & wa & Hy & H1).
    apply bind_inv_Return in H1 as (ys & wb & Hys & H1).
    injection H1 as <- <-.
    rewrite <- app_comm_cons. cbn [for_each].
    rewrite (bind_Return _ _ _ _ _ Hy).
    by rewrite (bind_Return _ _ _ _ _ (IH _ _ Hys H2)).
Qed.

Section Listing.

Context (uuid4 : nat → string) (utcnow : nat → Z)
        (datetime_of : value → option Z).

(** The objects that a list of stored documents is read as do not depend
    on the world they are read in. *)
Lemma for_each_stored_projects_any (l : list dict) :
  Forall is_project_doc l →
  ∃ ps, ∀ w, for_each (Project_init uuid4 utcnow datetime_of) l w = (Return ps, w).
Proof.
  induction 1 as [|d l (oid & p & ->) _ (ps & IH)].
  - by exists [].
  - exists (p :: ps). intros w. cbn [for_each].
    rewrite (bind_Return _ _ _ _ _ (Project_init_stored uuid4 utcnow datetime_of oid p w)).
    by rewrite (bind_Return _ _ _ _ _ (IH w)).
Qed.

Lemma for_each_stored_status_any (l : list dict) :
  Forall is_status_doc l →
  ∃ ss, ∀ w, for_each (StatusCheck_init uuid4 utcnow datetime_of) l w = (Return ss, w).
Proof.
  induction 1 as [|d l (oid & s & ->) _ (ss & IH)].
  - by exists [].
  - exists (s :: ss). intros w. cbn [for_each].
    rewrite (bind_Return _ _ _ _ _ (StatusCheck_init_stored uuid4 utcnow datetime_of oid s w)).
    by rewrite (bind_Return _ _ _ _ _ (IH w)).
Qed.

Lemma get_projects_eq w :
  get_projects uuid4 utcnow datetime_of w
  = for_each (Project_init uuid4 utcnow datetime_of) (take 1000 (projects w)) w.
Proof.
  unfold get_projects.
  by rewrite (bind_Return (find_to_list db_projects 1000) _ w
                (take 1000 (projects w)) w eq_refl).
Qed.

Lemma get_status_checks_eq w :
  get_status_checks uuid4 utcnow datetime_of w
  = for_each (StatusCheck_init uuid4 utcnow datetime_of) (take 1000 (status_checks w)) w.
Proof.
  unfold get_status_checks.
  by rewrite (bind_Return (find_to_list db_status_checks 1000) _ w
                (take 1000 (status_checks w)) w eq_refl).
Qed.

(** X4. Status checks are listed in the order they were created: in a
    well-formed world with fewer than 1000 status checks, the listing after
    a create is the former listing followed by the new check as the store
    keeps it, that is the check of the answer with its timestamp cut to the
    millisecond. *)
Theorem created_status_check_is_listed (kw : dict) (name : string) (w : World) :
  well_formed w →
  length (status_checks w) < 1000 →
  kw !! "client_name" = Some (VStr name) →
  ∃ s w' ss,
    POST_status uuid4 utcnow datetime_of (VDict kw) w = (Return s, w') ∧
    get_status_checks uuid4 utcnow datetime_of w = (Return ss, w) ∧
    length ss = length (status_checks w) ∧
    get_status_checks uuid4 utcnow datetime_of w'
    = (Return (ss ++ [status_at_millis s]), w') ∧
    StatusCheck.id (status_at_millis s) = StatusCheck.id s ∧
    StatusCheck.client_name (status_at_millis s) = name ∧
    StatusCheck.timestamp (status_at_millis s)
    = (utcnow (clock_reads w) `div` 1000 * 1000)%Z.
Proof.
  intros [_ Hs] Hlen H.
  rewrite (POST_status_valid uuid4 utcnow datetime_of kw name w H).
  destruct (for_each_stored_status_any (status_checks w) Hs) as (ss & Hss).
  destruct (for_each_stored_status uuid4 utcnow datetime_of (status_checks w) w Hs)
    as (ss' & Hss' & HF).
  rewrite Hss in Hss'. injection Hss' as <-.
  eexists _, _, ss. split; [reflexivity|].
  rewrite !get_status_checks_eq. cbn [status_checks].
  rewrite !take_ge by (rewrite ?length_app; cbn [length]; lia).
  split; [apply Hss|]. split; [symmetry; exact (Forall2_length _ _ _ HF)|].
  split; [|done].
  eapply for_each_app; [apply Hss|]. cbn [for_each].
  rewrite (bind_Return _ _ _ _ _
             (StatusCheck_init_stored uuid4 utcnow datetime_of _ _ _)).
  reflexivity.
Qed.

(** X5. Projects are listed in the order they were created: in a
    well-formed world with fewer than 1000 projects, the listing after a
    create is the former listing followed by the new project as the store
    keeps it, that is the project of the answer with its created_date cut
    to the millisecond. *)
Theorem created_project_is_listed (body : value) (pc : ProjectCreate.t)
    (w : World) :
  well_formed w →
  length (projects w) < 1000 →
  ProjectCreate.validate body = Some pc →
  ∃ p w' ps,
    POST_projects uuid4 utcnow datetime_of body w = (Return p, w') ∧
    get_projects uuid4 utcnow datetime_of w = (Return ps, w) ∧
    length ps = length (projects w) ∧
    get_projects uuid4 utcnow datetime_of w'
    = (Return (ps ++ [project_at_millis p]), w') ∧
    Project.id (project_at_millis p) = Project.id p ∧
    Project.title (project_at_millis p) = ProjectCreate.title pc ∧
    Project.created_date (project_at_millis p)
    = (utcnow (clock_reads w) `div` 1000 * 1000)%Z.
Proof.
  intros [Hp _] Hlen H.
  rewrite (POST_projects_valid uuid4 utcnow datetime_of body pc w H).
  destruct (for_each_stored_projects_any (projects w) Hp) as (ps & Hps).
  destruct (for_each_stored_projects uuid4 utcnow datetime_of (projects w) w Hp)
    as (ps' & Hps' & HF).
  rewrite Hps in Hps'. injection Hps' as <-.
  eexists _, _, ps. split; [reflexivity|].
  rewrite !get_projects_eq. cbn [projects].
  rewrite !take_ge by (rewrite ?length_app; cbn [length]; lia).
  split; [apply Hps|]. split; [symmetry; exact (Forall2_length _ _ _ HF)|].
  split; [|done].
  eapply for_each_app; [apply Hps|]. cbn [for_each].
  rewrite (bind_Return _ _ _ _ _
             (Project_init_stored uuid4 utcnow datetime_of _ _ _)).
  reflexivity.
Qed.

(** X6. The cap hides what is created beyond it. Let the generator never
    repeat an identifier, and let the world be consistent (every document
    of the catalog was stored by a handler, with an identifier that the
    generator has issued) with a catalog of 1000 projects or more. Then a
    newly created project is stored, and fetching its id answers with it as
    the store keeps it (created_date cut to the millisecond), but the
    listing after the create is the listing before it. *)
Theorem created_project_beyond_cap_is_not_listed (body : value)
    (pc : ProjectCreate.t) (w : World) :
  Inj (=) (=) uuid4 →
  consistent uuid4 w →
  (1000 ≤ length (projects w))%nat →
  ProjectCreate.validate body = Some pc →
  ∃ p w' ps,
    POST_projects uuid4 utcnow datetime_of body w = (Return p, w') ∧
    get_project uuid4 utcnow datetime_of (Project.id p) w'
    = (Return (project_at_millis p), w') ∧
    length (projects w') = S (length (projects w)) ∧
    get_projects uuid4 utcnow datetime_of w = (Return ps, w) ∧
    get_projects uuid4 utcnow datetime_of w' = (Return ps, w') ∧
    length ps = 1000.
Proof.
  intros Hinj Hc Hlen H.
  pose proof Hc as [[Hp _] _].
  rewrite (POST_projects_valid uuid4 utcnow datetime_of body pc w H).
  destruct (for_each_stored_projects_any (take 1000 (projects w))
              (Forall_take _ _ _ Hp)) as (ps & Hps).
  eexists _, _, ps. split; [reflexivity|]. split.
  { erewrite get_project_found; [apply Project_init_stored|].
    cbn [projects]. apply find_one_snoc.
    - by apply fresh_id_unmatched.
    - rewrite matches_stored_project. by apply bool_decide_eq_true. }
  split. { cbn [projects]. rewrite length_app. cbn [length]. lia. }
  rewrite !get_projects_eq. cbn [projects].
  rewrite take_app_le by done.
  split; [apply Hps|]. split; [apply Hps|].
  destruct (for_each_stored_projects uuid4 utcnow datetime_of (take 1000 (projects w)) w
              (Forall_take _ _ _ Hp)) as (ps' & Hps' & HF).
  rewrite Hps in Hps'. injection Hps' as <-.
  rewrite <- (Forall2_length _ _ _ HF), length_take. lia.
Qed.

(** X7. [dict()] loses nothing: building a Project, or a StatusCheck, from
    the dict of one gives that very object back, without drawing an
    identifier or reading the clock; so two objects with the same dict are
    the same object. *)
Theorem dict_round_trip (p q : Project.t) (s t : StatusCheck.t) (w : World) :
  Project_init uuid4 utcnow datetime_of (Project.dict_of p) w = (Return p, w) ∧
  StatusCheck_init uuid4 utcnow datetime_of (StatusCheck.dict_of s) w = (Return s, w) ∧
  (Project.dict_of p = Project.dict_of q → p = q) ∧
  (StatusCheck.dict_of s = StatusCheck.dict_of t → s = t).
Proof.
  assert (HP : ∀ p, Project_init uuid4 utcnow datetime_of (Project.dict_of p) w
                    = (Return p, w)).
  { intros [].
    unfold Project_init, field, field_factory, field_default, required,
      defaulted, Project.dict_of.
    simplify_map_eq.
    rewrite mapM_as_str_VStr, !as_optional_of_optional_str. done. }
  assert (HS : ∀ s, StatusCheck_init uuid4 utcnow datetime_of (StatusCheck.dict_of s) w
                    = (Return s, w)).
  { intros [].
    unfold StatusCheck_init, field, field_factory, field_default, required,
      defaulted, StatusCheck.dict_of.
    by simplify_map_eq. }
  refine (conj (HP p) (conj (HS s) (conj _ _))).
  - intros E. pose proof (HP p) as H1. rewrite E, HP in H1.
    by injection H1 as ->.
  - intros E. pose proof (HS s) as H1. rewrite E, HS in H1.
    by injection H1 as ->.
Qed.

End Listing.

(** ** Reachable worlds *)

Lemma project_ids_snoc_stored (l : list dict) oid p w :
  projects w = l ++ [stored_project oid p] →
  project_ids w = omap (λ d : dict, d !! "id" ≫= as_str) l ++ [Project.id p].
Proof.
  intros H. unfold project_ids. rewrite H, omap_app.
  cbn [omap list_omap]. by rewrite stored_project_id.
Qed.

Lemma delete_one_sublist q (coll : list dict) :
  fst (Collection.delete_one q coll) `sublist_of` coll.
Proof.
  induction coll as [|d coll IH]; cbn [Collection.delete_one]; [done|].
  destruct (matches q d).
  - cbn [fst]. by apply sublist_cons.
  - destruct (Collection.delete_one q coll) as [rest n]. cbn [fst] in *.
    by apply sublist_skip.
Qed.

Lemma omap_sublist {A B} (f : A → option B) (l k : list A) :
  l `sublist_of` k → omap f l `sublist_of` omap f k.
Proof.
  induction 1 as [|x l k _ IH|x l k _ IH]; cbn [omap list_omap].
  - done.
  - destruct (f x); [by apply sublist_skip|done].
  - destruct (f x); [by apply sublist_cons|done].
Qed.

Lemma omap_imap_Some {A B C} (g : B → option C) (f : nat → A → B)
    (h : nat → A → C) (l : list A) :
  (∀ i x, g (f i x) = Some (h i x)) → omap g (imap f l) = imap h l.
Proof.
  revert f h. induction l as [|x l IH]; intros f h H; [done|].
  rewrite !imap_cons. cbn [omap list_omap]. rewrite H. f_equal.
  apply IH. intros i y. apply H.
Qed.

Section Reachable.

Context (uuid4 : nat → string) (utcnow : nat → Z)
        (datetime_of : value → option Z).

Lemma get_projects_wf w :
  well_formed w → ∃ ps, get_projects uuid4 utcnow datetime_of w = (Return ps, w).
Proof.
  intros [Hp _]. rewrite get_projects_eq.
  destruct (for_each_stored_projects_any uuid4 utcnow datetime_of
              (take 1000 (projects w)) (Forall_take _ _ _ Hp)) as (ps & H).
  by exists ps.
Qed.

Lemma get_status_checks_wf w :
  well_formed w → ∃ ss, get_status_checks uuid4 utcnow datetime_of w = (Return ss, w).
Proof.
  intros [_ Hs]. rewrite get_status_checks_eq.
  destruct (for_each_stored_status_any uuid4 utcnow datetime_of
              (take 1000 (status_checks w)) (Forall_take _ _ _ Hs)) as (ss & H).
  by exists ss.
Qed.

Lemma get_project_wf pid w :
  well_formed w →
  (∃ oid p, get_project uuid4 utcnow datetime_of pid w = (Return p, w) ∧
            Project.id p = pid ∧ stored_project oid p ∈ projects w) ∨
  (get_project uuid4 utcnow datetime_of pid w
   = (Raise (HTTPException 404 "Project not found"), w) ∧
   count_matching (q_eq "id" pid) (projects w) = 0).
Proof.
  intros [Hp _].
  destruct (Collection.find_one (q_eq "id" pid) (projects w)) as [d|] eqn:Hf.
  - left. pose proof (find_one_Some _ _ _ Hf) as [Hd Hm].
    pose proof (proj1 (Forall_forall _ _) Hp d Hd) as (oid & p & ->).
    rewrite matches_stored_project in Hm. apply bool_decide_eq_true in Hm.
    exists oid, p.
    by rewrite (get_project_found _ _ _ _ _ _ Hf), Project_init_stored.
  - right. apply find_one_None in Hf. split; [|done].
    by apply get_project_not_found.
Qed.

Lemma serve_consistent r w :
  consistent uuid4 w → consistent uuid4 (snd (serve uuid4 utcnow datetime_of r w)).
Proof.
  intros Hc. pose proof Hc as [Hwf _].
  destruct r; cbn [serve]; rewrite snd_answer.
  - done.
  - by apply consistent_POST_status.
  - destruct (get_status_checks_wf w Hwf) as (ss & ->). done.
  - destruct (get_projects_wf w Hwf) as (ps & ->). done.
  - destruct (get_project_wf project_id w Hwf)
      as [(oid & p & -> & _)|[-> _]]; done.
  - by apply consistent_POST_projects.
  - by apply consistent_delete_project.
  - by apply consistent_create_sample_projects.
Qed.

Lemma reachable_consistent w :
  reachable uuid4 utcnow datetime_of w → consistent uuid4 w.
Proof.
  induction 1 as [|r w _ IH]; [apply consistent_empty|by apply serve_consistent].
Qed.

Lemma project_ids_issued w s :
  consistent uuid4 w → s ∈ project_ids w →
  ∃ k, k < uuid_draws w ∧ s = uuid4 k.
Proof.
  intros [_ Hids] Hs. unfold project_ids in Hs.
  apply list_elem_of_omap in Hs as (d & Hd & Hlook).
  destruct (d !! "id") as [v|] eqn:Hv; [|done].
  destruct v; try done. cbn in Hlook. injection Hlook as ->.
  by apply (Hids d).
Qed.

Lemma serve_unique_ids r w :
  Inj (=) (=) uuid4 → consistent uuid4 w →
  NoDup (project_ids w) → NoDup (project_ids (snd (serve uuid4 utcnow datetime_of r w))).
Proof.
  intros Hinj Hc Hnd. pose proof Hc as [Hwf _].
  destruct r; cbn [serve]; rewrite snd_answer.
  - done.
  - unfold POST_status. destruct (StatusCheckCreate.validate body); [|done].
    by rewrite create_status_check_eq.
  - destruct (get_status_checks_wf w Hwf) as (ss & ->). done.
  - destruct (get_projects_wf w Hwf) as (ps & ->). done.
  - destruct (get_project_wf project_id w Hwf)
      as [(oid & p & -> & _)|[-> _]]; done.
  - unfold POST_projects. destruct (ProjectCreate.validate body) as [pc|];
      [|done].
    rewrite create_project_eq. cbn [snd].
    erewrite project_ids_snoc_stored; [|reflexivity].
    apply NoDup_app. split; [done|]. split; [|apply NoDup_singleton].
    intros s Hs Hin. apply list_elem_of_singleton in Hin.
    destruct (project_ids_issued w s Hc Hs) as (k & Hk & ->).
    cbn in Hin. apply Hinj in Hin. lia.
  - rewrite delete_project_eq.
    pose proof (delete_one_sublist (q_eq "id" project_id) (projects w)) as Hs.
    destruct (Collection.delete_one _ _) as [docs n]. cbn [fst snd] in *.
    apply (sublist_NoDup _ (project_ids w) Hnd).
    unfold project_ids. cbn [projects set_projects]. by apply omap_sublist.
  - destruct (create_sample_projects_eq uuid4 utcnow datetime_of w)
      as (pcs & w' & _ & _ & Hrun & Hp & _).
    rewrite Hrun. cbn [snd]. unfold project_ids. rewrite Hp.
    rewrite (omap_imap_Some _ _ (λ i _, uuid4 (uuid_draws w + i)));
      [|intros i pc; by rewrite stored_project_id].
    apply NoDup_alt. intros i j s Hi Hj.
    rewrite list_lookup_imap in Hi, Hj.
    destruct (pcs !! i); [|done]. destruct (pcs !! j); [|done].
    cbn in Hi, Hj. injection Hi as <-. injection Hj as Hj.
    apply Hinj in Hj. lia.
Qed.

End Reachable.

(** ** The catalog in reachable worlds *)

Lemma stored_ids_cons oid p (l : list dict) :
  omap (λ d : dict, d !! "id" ≫= as_str) (stored_project oid p :: l)
  = Project.id p :: omap (λ d : dict, d !! "id" ≫= as_str) l.
Proof. cbn [omap list_omap]. by rewrite stored_project_id. Qed.

Lemma stored_id_elem_of oid p (l : list dict) :
  stored_project oid p ∈ l →
  Project.id p ∈ omap (λ d : dict, d !! "id" ≫= as_str) l.
Proof.
  intros H. apply list_elem_of_omap. exists (stored_project oid p).
  split; [done|]. by rewrite stored_project_id.
Qed.

Lemma count_matching_zero_ids (l : list dict) pid :
  Forall is_project_doc l →
  count_matching (q_eq "id" pid) l = 0
  ↔ pid ∉ omap (λ d : dict, d !! "id" ≫= as_str) l.
Proof.
  intros Hwf. rewrite count_matching_zero. split.
  - intros H Hin. apply list_elem_of_omap in Hin as (d & Hd & Hlook).
    pose proof (proj1 (Forall_forall _ _) Hwf d Hd) as (oid & p & ->).
    rewrite stored_project_id in Hlook. cbn in Hlook. injection Hlook as <-.
    specialize (H _ Hd). rewrite matches_stored_project in H.
    by apply bool_decide_eq_false in H.
  - intros H d Hd.
    pose proof (proj1 (Forall_forall _ _) Hwf d Hd) as (oid & p & ->).
    rewrite matches_stored_project. apply bool_decide_eq_false. intros <-.
    apply H. by apply (stored_id_elem_of oid).
Qed.

Lemma stored_project_same_id oid p oid' p' :
  stored_project oid p = stored_project oid' p' → Project.id p = Project.id p'.
Proof.
  intros H. pose proof (stored_project_id oid p) as H1.
  rewrite H, stored_project_id in H1. by injection H1.
Qed.

Lemma find_one_unique (l : list dict) oid p :
  Forall is_project_doc l →
  NoDup (omap (λ d : dict, d !! "id" ≫= as_str) l) →
  stored_project oid p ∈ l →
  Collection.find_one (q_eq "id" (Project.id p)) l = Some (stored_project oid p).
Proof.
  unfold Collection.find_one.
  induction 1 as [|d l (oid' & p' & ->) Hl IH]; intros Hnd Hin.
  - by apply elem_of_nil in Hin.
  - rewrite stored_ids_cons in Hnd. apply NoDup_cons in Hnd as [Hnot Hnd].
    cbn [List.find]. rewrite matches_stored_project.
    apply elem_of_cons in Hin as [Heq|Hin].
    + rewrite bool_decide_eq_true_2; [by rewrite Heq|].
      symmetry. by apply (stored_project_same_id oid p oid' p').
    + rewrite bool_decide_eq_false_2; [by apply IH|].
      intros Heq. apply Hnot. rewrite Heq. by apply (stored_id_elem_of oid).
Qed.

Lemma count_matching_unique (l : list dict) pid :
  Forall is_project_doc l →
  NoDup (omap (λ d : dict, d !! "id" ≫= as_str) l) →
  pid ∈ omap (λ d : dict, d !! "id" ≫= as_str) l →
  count_matching (q_eq "id" pid) l = 1.
Proof.
  induction 1 as [|d l (oid & p & ->) Hl IH]; intros Hnd Hin.
  - by apply elem_of_nil in Hin.
  - rewrite stored_ids_cons in Hnd, Hin. apply NoDup_cons in Hnd as [Hnot Hnd].
    unfold count_matching in *. cbn [List.filter].
    rewrite matches_stored_project.
    apply elem_of_cons in Hin as [->|Hin].
    + rewrite bool_decide_eq_true_2 by done. cbn [length]. f_equal.
      by apply (count_matching_zero_ids l (Project.id p) Hl).
    + rewrite bool_decide_eq_false_2; [by apply IH|].
      intros Heq. apply Hnot. by rewrite Heq.
Qed.

(** Removing the first match of one filter does not change what another
    filter finds, when no document matches both. *)
Lemma find_one_delete_one q q' (l : list dict) :
  (∀ d, d ∈ l → matches q d = true → matches q' d = false) →
  Collection.find_one q' (fst (Collection.delete_one q l))
  = Collection.find_one q' l.
Proof.
  unfold Collection.find_one.
  induction l as [|d l IH]; intros H; [done|].
  cbn [Collection.delete_one].
  destruct (matches q d) eqn:Hq.
  - cbn [fst List.find]. by rewrite (H d (list_elem_of_here _ _) Hq).
  - specialize (IH (λ d' Hd', H d' (list_elem_of_further _ _ _ Hd'))).
    destruct (Collection.delete_one q l) as [rest n]. cbn [fst] in *.
    cbn [List.find]. by rewrite IH.
Qed.

Section Catalog.

Context (uuid4 : nat → string) (utcnow : nat → Z)
        (datetime_of : value → option Z).

Lemma reachable_unique_ids w :
  Inj (=) (=) uuid4 → reachable uuid4 utcnow datetime_of w → NoDup (project_ids w).
Proof.
  intros Hinj. induction 1 as [|r w Hr IH]; [constructor|].
  apply (serve_unique_ids uuid4 utcnow datetime_of); [done| |done].
  by apply (reachable_consistent uuid4 utcnow datetime_of).
Qed.

(** X8. Identifiers are unique in the catalog: in every world that the
    server can reach from the empty store, with a generator that never
    repeats, every document of the catalog is a stored project and no two of
    them carry the same id. *)
Theorem catalog_ids_are_unique (w : World) :
  Inj (=) (=) uuid4 →
  reachable uuid4 utcnow datetime_of w →
  Forall is_project_doc (projects w) ∧
  NoDup (project_ids w) ∧
  length (project_ids w) = length (projects w).
Proof.
  intros Hinj Hr. pose proof (reachable_consistent uuid4 utcnow datetime_of w Hr) as [[Hp _] _].
  split; [done|]. split; [by apply reachable_unique_ids|].
  unfold project_ids. clear -Hp.
  induction Hp as [|d l (oid & p & ->) _ IH]; [done|].
  rewrite stored_ids_cons. cbn [length]. by rewrite IH.
Qed.

(** X9. In every reachable world a stored project is fetched by its id:
    the answer is that project, not another one, and nothing changes. *)
Theorem stored_project_is_fetched_by_id (w : World) (oid : nat) (p : Project.t) :
  Inj (=) (=) uuid4 →
  reachable uuid4 utcnow datetime_of w →
  stored_project oid p ∈ projects w →
  get_project uuid4 utcnow datetime_of (Project.id p) w = (Return p, w).
Proof.
  intros Hinj Hr Hin.
  pose proof (reachable_consistent uuid4 utcnow datetime_of w Hr) as [[Hp _] _].
  pose proof (reachable_unique_ids w Hinj Hr) as Hnd.
  rewrite (get_project_found _ _ _ _ _ _ (find_one_unique _ oid p Hp Hnd Hin)).
  apply Project_init_stored.
Qed.

(** X10. Deleting in a reachable world: an id of the catalog is deleted
    with the confirmation message, exactly one document goes, the id is no
    longer in the catalog, fetching it answers 404 and deleting it again
    answers 404; an id that is not in the catalog answers 404 and changes
    nothing. *)
Theorem delete_project_in_reachable_world (w : World) (project_id : string) :
  Inj (=) (=) uuid4 →
  reachable uuid4 utcnow datetime_of w →
  (project_id ∈ project_ids w →
   ∃ w',
     delete_project project_id w
     = (Return {[ "message" := VStr "Project deleted successfully" ]}, w') ∧
     length (projects w) = S (length (projects w')) ∧
     (project_id ∉ project_ids w') ∧
     get_project uuid4 utcnow datetime_of project_id w'
     = (Raise (HTTPException 404 "Project not found"), w') ∧
     delete_project project_id w'
     = (Raise (HTTPException 404 "Project not found"), w')) ∧
  (project_id ∉ project_ids w →
   delete_project project_id w
   = (Raise (HTTPException 404 "Project not found"), w)).
Proof.
  intros Hinj Hr.
  pose proof (reachable_consistent uuid4 utcnow datetime_of w Hr) as [[Hp _] _].
  pose proof (reachable_unique_ids w Hinj Hr) as Hnd.
  split.
  - intros Hin.
    pose proof (count_matching_unique _ _ Hp Hnd Hin) as Hone.
    assert (Hpos : count_matching (q_eq "id" project_id) (projects w) ≠ 0)
      by lia.
    destruct (delete_one_pos _ _ Hpos) as [Hcnt Hrest].
    pose proof (delete_one_single _ _ Hone) as Hflt.
    pose proof (delete_one_sublist (q_eq "id" project_id) (projects w)) as Hsub.
    rewrite delete_project_eq.
    destruct (Collection.delete_one (q_eq "id" project_id) (projects w))
      as [docs n] eqn:Hdel. cbn [fst snd] in *. subst n. cbn [Nat.eqb].
    assert (Hzero : count_matching (q_eq "id" project_id) docs = 0) by lia.
    assert (Hdocs : Forall is_project_doc docs).
    { apply Forall_forall. intros d Hd.
      apply (proj1 (Forall_forall _ _) Hp). by eapply elem_of_sublist. }
    eexists. split; [reflexivity|]. cbn [projects set_projects].
    split.
    { symmetry. clear -Hdel Hpos. revert docs Hdel.
      unfold count_matching in Hpos.
      induction (projects w) as [|d l IH]; intros docs Hdel; [done|].
      cbn [Collection.delete_one List.filter] in *.
      destruct (matches (q_eq "id" project_id) d).
      - by injection Hdel as <-.
      - destruct (Collection.delete_one (q_eq "id" project_id) l)
          as [rest k]. injection Hdel as <- ->. cbn [length].
        f_equal. by apply IH. }
    split.
    { unfold project_ids. cbn [projects].
      by apply (count_matching_zero_ids docs project_id Hdocs). }
    split.
    { by apply get_project_not_found. }
    rewrite delete_project_eq. cbn [projects set_projects].
    rewrite (delete_one_zero _ _ Hzero). cbn [Nat.eqb]. by destruct w.
  - intros Hnot.
    apply (count_matching_zero_ids _ _ Hp) in Hnot.
    rewrite delete_project_eq, (delete_one_zero _ _ Hnot). cbn [Nat.eqb].
    by rewrite set_projects_same.
Qed.

(** X11. Deleting one project leaves the others as they were: in a
    well-formed world, fetching any other id answers after the delete what
    it answered before. *)
Theorem delete_leaves_other_projects (w : World) (project_id other : string) :
  well_formed w →
  other ≠ project_id →
  fst (get_project uuid4 utcnow datetime_of other (snd (delete_project project_id w)))
  = fst (get_project uuid4 utcnow datetime_of other w).
Proof.
  intros [Hp Hs] Hne.
  assert (Hfind :
    Collection.find_one (q_eq "id" other)
      (projects (snd (delete_project project_id w)))
    = Collection.find_one (q_eq "id" other) (projects w)).
  { rewrite delete_project_eq.
    pose proof (find_one_delete_one (q_eq "id" project_id) (q_eq "id" other)
                  (projects w)) as H.
    destruct (Collection.delete_one _ _) as [docs n]. cbn [fst snd] in *.
    cbn [projects set_projects]. apply H. intros d Hd Hm.
    pose proof (proj1 (Forall_forall _ _) Hp d Hd) as (oid & p & ->).
    rewrite matches_stored_project in *. apply bool_decide_eq_true in Hm.
    apply bool_decide_eq_false. congruence. }
  destruct (Collection.find_one (q_eq "id" other) (projects w)) as [d|] eqn:Hf.
  - pose proof (find_one_Some _ _ _ Hf) as [Hd _].
    pose proof (proj1 (Forall_forall _ _) Hp d Hd) as (oid & p & ->).
    rewrite (get_project_found _ _ _ _ _ _ Hfind),
            (get_project_found _ _ _ _ _ _ Hf).
    by rewrite !Project_init_stored.
  - apply find_one_None in Hf, Hfind.
    by rewrite !get_project_not_found.
Qed.

End Catalog.

(** ** Status codes *)

Lemma raises_only_ret {A} e (a : A) : raises_only e (ret a).
Proof. intros w e' w' H. discriminate H. Qed.

Lemma raises_only_raise {A} e : raises_only e (@raise A e).
Proof. intros w e' w' H. by injection H as <- _. Qed.

Lemma raises_only_checked {A} (o : option A) :
  raises_only ValidationError (checked o).
Proof. destruct o; [apply raises_only_ret|apply raises_only_raise]. Qed.

Lemma raises_only_bind {A B} e (m : M A) (k : A → M B) :
  raises_only e m → (∀ a, raises_only e (k a)) → raises_only e (m ≫= k).
Proof.
  intros Hm Hk w e' w' H. unfold mbind, M_bind, bind in H.
  destruct (m w) as [[a|e0] w1] eqn:Hmw.
  - by apply (Hk a w1 e' w').
  - injection H as <- _. by apply (Hm w e0 w1).
Qed.

Lemma raises_only_for_each {A B} e (f : A → M B) (xs : list A) :
  (∀ x, raises_only e (f x)) → raises_only e (for_each f xs).
Proof.
  intros Hf. induction xs as [|x xs IH]; cbn [for_each];
    [apply raises_only_ret|].
  apply raises_only_bind; [done|]. intros y.
  apply raises_only_bind; [done|]. intros ys. apply raises_only_ret.
Qed.

(** What [for_each] returns, every element returned. *)
Lemma for_each_Return_all {A B} (f : A → M B) (xs : list A) w ys w' :
  for_each f xs w = (Return ys, w') →
  Forall (λ x, ∃ w1 y w2, f x w1 = (Return y, w2)) xs.
Proof.
  revert w ys w'. induction xs as [|x xs IH]; intros w ys w' H; [constructor|].
  cbn [for_each] in H. apply bind_inv_Return in H as (y & w1 & Hy & H).
  apply bind_inv_Return in H as (ys' & w2 & Hys & _).
  constructor; [by exists w, y, w1|by eapply IH].
Qed.

Section Statuses.

Context (uuid4 : nat → string) (utcnow : nat → Z)
        (datetime_of : value → option Z).

Lemma raises_only_field_factory {A} (f : value → option A) (factory : M A) k kw :
  raises_only ValidationError factory →
  raises_only ValidationError (field_factory f factory k kw).
Proof.
  intros H. unfold field_factory.
  destruct (kw !! k); [apply raises_only_checked|done].
Qed.

Lemma raises_only_uuid4_str e : raises_only e (uuid4_str uuid4).
Proof. intros w e' w' H. discriminate H. Qed.

Lemma raises_only_datetime_utcnow e : raises_only e (datetime_utcnow utcnow).
Proof. intros w e' w' H. discriminate H. Qed.

Lemma raises_only_Project_init kw :
  raises_only ValidationError (Project_init uuid4 utcnow datetime_of kw).
Proof.
  unfold Project_init, field, field_default.
  repeat (apply raises_only_bind;
          [first [apply raises_only_field_factory;
                  first [apply raises_only_uuid4_str
                        |apply raises_only_datetime_utcnow]
                 |apply raises_only_checked]
          |intros ?]).
  apply raises_only_ret.
Qed.

Lemma field_Return_is_Some {A} (f : value → option A) k kw (a : A) w1 w2 :
  field f k kw w1 = (Return a, w2) → is_Some (kw !! k).
Proof.
  unfold field, required. destruct (kw !! k); [by eexists|discriminate].
Qed.

(** A Project is only built from keyword arguments that hold its five
    required fields. *)
Lemma Project_init_Return_required kw w p w' :
  Project_init uuid4 utcnow datetime_of kw w = (Return p, w') →
  ∀ k, k ∈ ["title"; "description"; "tech_stack"; "image_url"; "category"] →
       is_Some (kw !! k).
Proof.
  intros H. unfold Project_init in H.
  repeat match type of H with
         | (_ ≫= _) _ = (Return _, _) =>
             let a := fresh "a" in
             let w1 := fresh "w" in
             let Ha := fresh "Ha" in
             apply bind_inv_Return in H as (a & w1 & Ha & H)
         end.
  intros k Hk.
  repeat (apply elem_of_cons in Hk as [->|Hk]); [..|by apply elem_of_nil in Hk];
    eauto using field_Return_is_Some.
Qed.

(** X12. One document that lacks a required field breaks the whole
    listing: if any of the first 1000 documents of the catalog has no
    title, description, tech_stack, image_url or category, listing the
    projects raises a validation error inside the handler, which is
    answered with 500; the collections are left as they were. *)
Theorem malformed_document_breaks_listing (w : World) (d : dict) (k : string) :
  d ∈ take 1000 (projects w) →
  k ∈ ["title"; "description"; "tech_stack"; "image_url"; "category"] →
  d !! k = None →
  ∃ w',
    get_projects uuid4 utcnow datetime_of w = (Raise ValidationError, w') ∧
    fst (serve uuid4 utcnow datetime_of Get_projects w) = 500 ∧
    projects w' = projects w ∧
    status_checks w' = status_checks w.
Proof.
  intros Hd Hk Hnone.
  pose proof (keeps_for_each (Project_init uuid4 utcnow datetime_of)
                (take 1000 (projects w)) (keeps_Project_init uuid4 utcnow datetime_of) w)
    as Hkeep.
  cbn [serve]. rewrite fst_answer.
  rewrite get_projects_eq.
  destruct (for_each (Project_init uuid4 utcnow datetime_of) (take 1000 (projects w)) w)
    as [[ps|e] w'] eqn:Hrun.
  - exfalso. apply for_each_Return_all in Hrun.
    pose proof (proj1 (Forall_forall _ _) Hrun d Hd) as (w1 & p & w2 & Hp).
    destruct (Project_init_Return_required _ _ _ _ Hp k Hk) as [v Hv].
    congruence.
  - assert (e = ValidationError) as ->.
    { eapply (raises_only_for_each ValidationError); [|exact Hrun].
      apply raises_only_Project_init. }
    exists w'. by destruct Hkeep.
Qed.

End Statuses.

Lemma delete_project_cases pid w :
  (count_matching (q_eq "id" pid) (projects w) = 0 ∧
   delete_project pid w = (Raise (HTTPException 404 "Project not found"), w)) ∨
  (count_matching (q_eq "id" pid) (projects w) ≠ 0 ∧
   ∃ w', delete_project pid w
         = (Return {[ "message" := VStr "Project deleted successfully" ]}, w')).
Proof.
  rewrite delete_project_eq.
  destruct (count_matching (q_eq "id" pid) (projects w)) as [|n] eqn:Hn.
  - left. split; [done|]. rewrite (delete_one_zero _ _ Hn). cbn [Nat.eqb].
    by rewrite set_projects_same.
  - right. split; [done|].
    assert (Hpos : count_matching (q_eq "id" pid) (projects w) ≠ 0) by lia.
    destruct (delete_one_pos _ _ Hpos) as [Hcnt _].
    destruct (Collection.delete_one _ _) as [docs k]. cbn [snd] in Hcnt.
    subst k. cbn [Nat.eqb]. by eexists.
Qed.

Ltac same_world :=
  repeat match goal with |- _ ∧ _ => split end;
  let H := fresh in
  intros H;
  first [reflexivity | discriminate H | exfalso; apply H; reflexivity].

Section Never500.

Context (uuid4 : nat → string) (utcnow : nat → Z)
        (datetime_of : value → option Z).

(** X13. The routes that write never answer 500, whatever the store holds:
    a create answers 200 or 422, a delete 200 or 404, the seed 200; and a
    request that is not answered with 200 leaves the world exactly as it
    was. *)
Theorem write_routes_never_answer_500 (r : request) (w : World) :
  is_get r = false →
  fst (serve uuid4 utcnow datetime_of r w) ∈ possible_statuses r ∧
  (fst (serve uuid4 utcnow datetime_of r w) ≠ 200 → snd (serve uuid4 utcnow datetime_of r w) = w).
Proof.
  intros Hr. destruct r; try discriminate Hr; cbn [serve possible_statuses];
    rewrite fst_answer, snd_answer.
  - unfold POST_status.
    destruct (StatusCheckCreate.validate body) as [x|].
    + rewrite create_status_check_eq. cbn [fst snd status_of].
      split; [apply list_elem_of_here|same_world].
    + cbn [raise fst snd status_of].
      split; [apply list_elem_of_further, list_elem_of_here|same_world].
  - unfold POST_projects.
    destruct (ProjectCreate.validate body) as [pc|].
    + rewrite create_project_eq. cbn [fst snd status_of].
      split; [apply list_elem_of_here|same_world].
    + cbn [raise fst snd status_of].
      split; [apply list_elem_of_further, list_elem_of_here|same_world].
  - destruct (delete_project_cases project_id w) as [[_ ->]|[_ [w' ->]]];
      cbn [fst snd status_of].
    + split; [apply list_elem_of_further, list_elem_of_here|same_world].
    + split; [apply list_elem_of_here|same_world].
  - destruct (create_sample_projects_eq uuid4 utcnow datetime_of w)
      as (pcs & w' & _ & _ & Hrun & _).
    rewrite Hrun. cbn [fst snd status_of].
    split; [apply list_elem_of_here|same_world].
Qed.

(** X14. In a reachable world no request is answered with 500: every
    route answers with one of its own codes (200; 200 or 422 for a create;
    200 or 404 for a fetch or delete by id), a request that is not answered
    with 200 leaves the world as it was, and so does every GET. *)
Theorem reachable_world_never_answers_500 (r : request) (w : World) :
  reachable uuid4 utcnow datetime_of w →
  fst (serve uuid4 utcnow datetime_of r w) ∈ possible_statuses r ∧
  (fst (serve uuid4 utcnow datetime_of r w) ≠ 200 → snd (serve uuid4 utcnow datetime_of r w) = w) ∧
  (is_get r = true → snd (serve uuid4 utcnow datetime_of r w) = w).
Proof.
  intros Hr.
  pose proof (reachable_consistent uuid4 utcnow datetime_of w Hr) as [Hwf _].
  destruct r; cbn [serve possible_statuses is_get];
    rewrite fst_answer, snd_answer.
  - cbn [root ret fst snd status_of].
    split; [apply list_elem_of_here|same_world].
  - unfold POST_status.
    destruct (StatusCheckCreate.validate body) as [x|].
    + rewrite create_status_check_eq. cbn [fst snd status_of].
      split; [apply list_elem_of_here|same_world].
    + cbn [raise fst snd status_of].
      split; [apply list_elem_of_further, list_elem_of_here|same_world].
  - destruct (get_status_checks_wf uuid4 utcnow datetime_of w Hwf) as (ss & ->).
    cbn [fst snd status_of]. split; [apply list_elem_of_here|same_world].
  - destruct (get_projects_wf uuid4 utcnow datetime_of w Hwf) as (ps & ->).
    cbn [fst snd status_of]. split; [apply list_elem_of_here|same_world].
  - destruct (get_project_wf uuid4 utcnow datetime_of project_id w Hwf)
      as [(oid & p & -> & _)|[-> _]]; cbn [fst snd status_of].
    + split; [apply list_elem_of_here|same_world].
    + split; [apply list_elem_of_further, list_elem_of_here|same_world].
  - unfold POST_projects.
    destruct (ProjectCreate.validate body) as [pc|].
    + rewrite create_project_eq. cbn [fst snd status_of].
      split; [apply list_elem_of_here|same_world].
    + cbn [raise fst snd status_of].
      split; [apply list_elem_of_further, list_elem_of_here|same_world].
  - destruct (delete_project_cases project_id w) as [[_ ->]|[_ [w' ->]]];
      cbn [fst snd status_of].
    + split; [apply list_elem_of_further, list_elem_of_here|same_world].
    + split; [apply list_elem_of_here|same_world].
  - destruct (create_sample_projects_eq uuid4 utcnow datetime_of w)
      as (pcs & w' & _ & _ & Hrun & _).
    rewrite Hrun. cbn [fst snd status_of].
    split; [apply list_elem_of_here|same_world].
Qed.

(** X15. Every project that the seed answers with can be fetched by its
    id right away, whatever the catalog held before, when the generator
    never repeats an identifier: the six identifiers are distinct, the
    former documents are gone, and the fetch answers with the project as
    the store keeps it, that is with its created_date cut to the
    millisecond and every other field as the seed answered it. *)
Theorem seeded_projects_are_fetched_by_id (w : World) :
  Inj (=) (=) uuid4 →
  ∃ r w',
    create_sample_projects uuid4 utcnow datetime_of w = (Return r, w') ∧
    length (seeded_projects r) = 6 ∧
    NoDup (Project.id <$> seeded_projects r) ∧
    ∀ p, p ∈ seeded_projects r →
         get_project uuid4 utcnow datetime_of (Project.id p) w'
         = (Return (project_at_millis p), w').
Proof.
  intros Hinj.
  destruct (create_sample_projects_eq uuid4 utcnow datetime_of w)
    as (pcs & w' & _ & Hcat & Hrun & Hp & _).
  eexists _, w'. split; [exact Hrun|]. cbn [seeded_projects].
  split.
  { rewrite length_imap, <- (length_fmap ProjectCreate.category), Hcat. done. }
  assert (Hids : omap (λ d : dict, d !! "id" ≫= as_str) (projects w')
                 = imap (λ i _, uuid4 (uuid_draws w + i)) pcs).
  { rewrite Hp. apply omap_imap_Some. intros i pc.
    by rewrite stored_project_id. }
  assert (Hnd : NoDup (imap (λ i (_ : ProjectCreate.t),
                               uuid4 (uuid_draws w + i)) pcs)).
  { apply NoDup_alt. intros i j s Hi Hj.
    rewrite list_lookup_imap in Hi, Hj.
    destruct (pcs !! i); [|done]. destruct (pcs !! j); [|done].
    cbn in Hi, Hj. injection Hi as <-. injection Hj as Hj.
    apply Hinj in Hj. lia. }
  split.
  { rewrite fmap_imap. exact Hnd. }
  intros p Hin. apply elem_of_lookup_imap in Hin as (i & pc & -> & Hi).
  erewrite get_project_found; [apply Project_init_stored|].
  apply (find_one_unique _ (oid_draws w + i)
           (project_at_millis
              (enrich_at uuid4 utcnow (uuid_draws w + i) (clock_reads w + i)
                 pc))).
  - rewrite Hp. apply Forall_forall. intros d Hd.
    apply elem_of_lookup_imap in Hd as (j & pc' & -> & _). by eexists _, _.
  - by rewrite Hids.
  - rewrite Hp.
    exact (elem_of_lookup_imap_2
             (λ i pc, stored_project (oid_draws w + i)
                        (project_at_millis
                           (enrich_at uuid4 utcnow (uuid_draws w + i)
                              (clock_reads w + i) pc)))
             pcs pc i Hi).
Qed.

End Never500.

(** ** Creation timestamps *)

Lemma sublist_fmap_inv {A B} (f : A → B) (l : list B) (k : list A) :
  l `sublist_of` (f <$> k) → ∃ k', k' `sublist_of` k ∧ l = f <$> k'.
Proof.
  revert l. induction k as [|x k IH]; intros l H.
  - apply sublist_nil_r in H as ->. by exists [].
  - rewrite fmap_cons in H. apply sublist_cons_r in H as [H|(l' & -> & H)].
    + destruct (IH l H) as (k' & Hk' & ->). exists k'.
      split; [by apply sublist_cons|done].
    + destruct (IH l' H) as (k' & Hk' & ->). exists (x :: k').
      split; [by apply sublist_skip|done].
Qed.

Lemma StronglySorted_sublist {A} (R : relation A) (l k : list A) :
  StronglySorted R k → l `sublist_of` k → StronglySorted R l.
Proof.
  intros Hk. revert l. induction Hk as [|x k Hk IH Hx]; intros l H.
  - apply sublist_nil_r in H as ->. constructor.
  - apply sublist_cons_r in H as [H|(l' & -> & H)]; [by apply IH|].
    constructor; [by apply IH|].
    apply Forall_forall. intros y Hy.
    apply (proj1 (Forall_forall _ _) Hx). by eapply elem_of_sublist.
Qed.

Lemma stored_project_created_date oid p :
  stored_project oid p !! "created_date"
  = Some (VDatetime (Project.created_date p)).
Proof. unfold stored_project, Project.dict_of. by simplify_map_eq. Qed.

Section Timestamps.

Context (uuid4 : nat → string) (utcnow : nat → Z)
        (datetime_of : value → option Z).

Lemma clock_stamped_later (w w' : World) :
  projects w' = projects w → (clock_reads w ≤ clock_reads w')%nat →
  clock_stamped utcnow w → clock_stamped utcnow w'.
Proof.
  intros Hp Hle (ks & Hd & Hs & Hlt). exists ks.
  unfold created_dates in *. rewrite Hp. split; [done|]. split; [done|].
  eapply Forall_impl; [exact Hlt|]. intros k Hk. cbn in Hk. lia.
Qed.

Lemma serve_clock_stamped r w :
  consistent uuid4 w → clock_stamped utcnow w →
  clock_stamped utcnow (snd (serve uuid4 utcnow datetime_of r w)).
Proof.
  intros Hc Hst. pose proof Hc as [Hwf _].
  destruct r; cbn [serve]; rewrite snd_answer.
  - done.
  - unfold POST_status. destruct (StatusCheckCreate.validate body); [|done].
    rewrite create_status_check_eq. cbn [snd].
    eapply clock_stamped_later; [| |exact Hst]; cbn; [done|lia].
  - destruct (get_status_checks_wf uuid4 utcnow datetime_of w Hwf) as (ss & ->). done.
  - destruct (get_projects_wf uuid4 utcnow datetime_of w Hwf) as (ps & ->). done.
  - destruct (get_project_wf uuid4 utcnow datetime_of project_id w Hwf)
      as [(oid & p & -> & _)|[-> _]]; done.
  - unfold POST_projects. destruct (ProjectCreate.validate body) as [pc|];
      [|done].
    rewrite create_project_eq. cbn [snd].
    destruct Hst as (ks & Hd & Hs & Hlt).
    exists (ks ++ [clock_reads w]). unfold created_dates in *.
    cbn [projects clock_reads]. rewrite omap_app, fmap_app, Hd.
    split.
    { cbn [omap list_omap]. by rewrite stored_project_created_date. }
    split.
    { apply StronglySorted_app_2; [|done|repeat constructor].
      intros a b Ha Hb. apply list_elem_of_singleton in Hb as ->.
      exact (proj1 (Forall_forall _ _) Hlt a Ha). }
    apply Forall_app. split.
    + eapply Forall_impl; [exact Hlt|]. intros k Hk. cbn in Hk. lia.
    + repeat constructor.
  - rewrite delete_project_eq.
    pose proof (delete_one_sublist (q_eq "id" project_id) (projects w)) as Hsub.
    destruct (Collection.delete_one _ _) as [docs n]. cbn [fst snd] in *.
    destruct Hst as (ks & Hd & Hs & Hlt). unfold created_dates in *.
    cbn [projects set_projects clock_reads].
    pose proof (omap_sublist
                  (λ d : dict, d !! "created_date" ≫= datetime_value) _ _ Hsub)
      as Hsub'.
    rewrite Hd in Hsub'.
    apply sublist_fmap_inv in Hsub' as (ks' & Hks' & Heq).
    exists ks'. unfold created_dates. cbn [projects set_projects clock_reads].
    split; [exact Heq|]. split; [by eapply StronglySorted_sublist|].
    apply Forall_forall. intros k Hk.
    apply (proj1 (Forall_forall _ _) Hlt). by eapply elem_of_sublist.
  - destruct (create_sample_projects_eq uuid4 utcnow datetime_of w)
      as (pcs & w' & _ & _ & Hrun & Hp & _ & _ & Hk & _).
    rewrite Hrun. cbn [snd].
    exists (imap (λ i (_ : ProjectCreate.t), clock_reads w + i) pcs).
    unfold created_dates. rewrite Hp.
    split.
    { rewrite fmap_imap. apply omap_imap_Some. intros i pc.
      by rewrite stored_project_created_date. }
    split.
    { generalize (clock_reads w). clear.
      induction pcs as [|pc pcs IH]; intros n; [constructor|].
      rewrite imap_cons. constructor.
      - rewrite (imap_ext _ (λ i (_ : ProjectCreate.t), S n + i));
          [apply IH|]. intros i x _. cbn. lia.
      - apply Forall_forall. intros k Hin.
        apply elem_of_lookup_imap in Hin as (i & x & -> & _). cbn. lia. }
    apply Forall_forall. intros k Hin.
    apply elem_of_lookup_imap in Hin as (i & x & -> & Hi).
    apply lookup_lt_Some in Hi. lia.
Qed.

Lemma reachable_clock_stamped w :
  reachable uuid4 utcnow datetime_of w → clock_stamped utcnow w.
Proof.
  induction 1 as [|r w Hr IH].
  - exists []. repeat split; constructor.
  - apply serve_clock_stamped; [|done].
    by apply (reachable_consistent uuid4 utcnow datetime_of).
Qed.

(** X16. Under a clock that never runs backwards, the creation timestamps
    of the catalog (which the store keeps to the millisecond) never decrease
    along the insertion order, in every reachable world; and every document
    of the catalog has one. *)
Theorem created_dates_follow_insertion_order (w : World) :
  (∀ m n, (m ≤ n)%nat → (utcnow m ≤ utcnow n)%Z) →
  reachable uuid4 utcnow datetime_of w →
  StronglySorted Z.le (created_dates w) ∧
  length (created_dates w) = length (projects w).
Proof.
  intros Hmono Hr. split.
  - destruct (reachable_clock_stamped w Hr) as (ks & -> & Hs & _).
    eapply StronglySorted_fmap; [|exact Hs].
    intros a b Hab. apply to_millis_mono, Hmono. lia.
  - pose proof (reachable_consistent uuid4 utcnow datetime_of w Hr) as [[Hp _] _].
    unfold created_dates. clear -Hp.
    induction Hp as [|d l (oid & p & ->) _ IH]; [done|].
    cbn [omap list_omap]. rewrite stored_project_created_date.
    cbn. by rewrite IH.
Qed.

End Timestamps.

(** ** The test script against the handlers *)

Lemma respond_Return {A} (encode : A → value) (m : M A) w a w' :
  m w = (Return a, w') →
  respond encode m w = (mkResponse 200 (Some (encode a)), w').
Proof. intros H. unfold respond. by rewrite H. Qed.

Lemma respond_HTTPException {A} (encode : A → value) (m : M A) w c d w' :
  m w = (Raise (HTTPException c d), w') →
  respond encode m w
  = (mkResponse c (Some (VDict {[ "detail" := VStr d ]})), w').
Proof. intros H. unfold respond. by rewrite H. Qed.

Lemma check_fields_project p :
  check_fields required_fields (json_of_project p) = Some true.
Proof.
  unfold required_fields, json_of_project, response_json, Project.dict_of.
  cbn [check_fields py_in].
  repeat (rewrite bool_decide_eq_true_2;
          [cbn [mbind option_bind]|by simplify_map_eq]).
  done.
Qed.

Lemma check_projects_projects (ps : list Project.t) :
  check_projects (json_of_project <$> ps) = Some true.
Proof.
  induction ps as [|p ps IH]; [done|].
  rewrite fmap_cons. cbn [check_projects].
  assert (Hc : py_getitem (json_of_project p) "category"
               = Some (VStr (Project.category p))).
  { unfold json_of_project, response_json, Project.dict_of, py_getitem.
    by simplify_map_eq. }
  rewrite Hc. cbn [mbind option_bind hashable].
  rewrite check_fields_project. cbn [mbind option_bind]. exact IH.
Qed.

Lemma judge_sample_seeded (r : Seeded) :
  length (seeded_projects r) = 6 →
  judge_sample (mkResponse 200 (Some (json_of_seeded r))) = true.
Proof.
  destruct r as [msg ps]. cbn [seeded_projects]. intros Hlen.
  unfold judge_sample, json_of_seeded.
  cbn [status_code json Nat.eqb seeded_message seeded_projects].
  cbn [mbind option_bind py_in].
  rewrite bool_decide_eq_true_2 by (by simplify_map_eq).
  cbn [mbind option_bind py_getitem].
  rewrite lookup_insert_ne by done. rewrite lookup_insert_eq.
  cbn [mbind option_bind py_len].
  rewrite length_fmap, Hlen. cbn [Nat.eqb mbind option_bind py_iter].
  by rewrite check_projects_projects.
Qed.

Lemma json_of_project_id p :
  py_getitem (json_of_project p) "id" = Some (VStr (Project.id p)) ∧
  py_in "id" (json_of_project p) = Some true ∧
  is_Some (py_getitem (json_of_project p) "title").
Proof.
  unfold json_of_project, response_json, Project.dict_of, py_getitem, py_in.
  split; [by simplify_map_eq|]. split.
  - rewrite bool_decide_eq_true_2; [done|by simplify_map_eq].
  - by simplify_map_eq.
Qed.

Lemma delete_one_snoc q (l : list dict) d :
  count_matching q l = 0 → matches q d = true →
  Collection.delete_one q (l ++ [d]) = (l, 1).
Proof.
  unfold count_matching. induction l as [|x l IH]; intros H Hm.
  - cbn. by rewrite Hm.
  - cbn [app Collection.delete_one List.filter] in *.
    destruct (matches q x); [discriminate H|]. by rewrite (IH H Hm).
Qed.

Lemma delete_one_length q (l : list dict) :
  count_matching q l ≠ 0 →
  length l = S (length (fst (Collection.delete_one q l))).
Proof.
  unfold count_matching. induction l as [|x l IH]; intros H; [done|].
  cbn [Collection.delete_one List.filter] in *.
  destruct (matches q x); [done|]. specialize (IH H).
  destruct (Collection.delete_one q l) as [rest k]. cbn [fst length] in *.
  by rewrite IH.
Qed.

Lemma new_project_valid :
  ∃ pc, ProjectCreate.validate new_project = Some pc.
Proof. eexists. vm_compute. reflexivity. Qed.

Section Tests.

Context (uuid4 : nat → string) (utcnow : nat → Z)
        (datetime_of : value → option Z).

(** X17. The health and sample tests pass in every world: whatever the
    store holds, [test_api_health] and [test_create_sample_projects] return
    True, and the listing test that follows the sample test returns a list
    of six projects. *)
Theorem sample_test_passes (w : World) :
  ∃ w' l,
    test_api_health uuid4 utcnow datetime_of w = (true, w) ∧
    test_create_sample_projects uuid4 utcnow datetime_of w = (true, w') ∧
    test_get_all_projects uuid4 utcnow datetime_of w' = (Some (VList l), w') ∧
    length l = 6.
Proof.
  destruct (create_sample_projects_eq uuid4 utcnow datetime_of w)
    as (pcs & w' & _ & Hcat & Hrun & Hp & _).
  assert (Hlen : length pcs = 6).
  { rewrite <- (length_fmap ProjectCreate.category), Hcat. reflexivity. }
  exists w'.
  assert (Hwf : Forall is_project_doc (projects w')).
  { rewrite Hp. apply Forall_forall. intros d Hd.
    apply elem_of_lookup_imap in Hd as (j & pc' & -> & _). by eexists _, _. }
  destruct (for_each_stored_projects uuid4 utcnow datetime_of (take 1000 (projects w')) w'
              (Forall_take _ _ _ Hwf)) as (ps & Hps & HF).
  exists (json_of_project <$> ps).
  unfold test_create_sample_projects, test_get_all_projects. cbn [http].
  rewrite (respond_Return json_of_seeded
             (create_sample_projects uuid4 utcnow datetime_of) w _ w' Hrun).
  cbn [fst snd].
  rewrite (respond_Return (λ l, VList (json_of_project <$> l))
             (get_projects uuid4 utcnow datetime_of) w' ps w');
    [|by rewrite get_projects_eq].
  cbn [fst snd]. split; [reflexivity|]. split; [|split].
  - f_equal. apply judge_sample_seeded. cbn [seeded_projects].
    by rewrite length_imap.
  - reflexivity.
  - rewrite length_fmap, <- (Forall2_length _ _ _ HF), length_take, Hp,
      length_imap, Hlen. reflexivity.
Qed.

(** X18. The fetch test tells a stored project from a missing one: in a
    reachable world [test_get_project_by_id] returns True for the id of
    every project of the catalog, and False for an id that no project of
    the catalog has; either way the world is left as it was. *)
Theorem get_by_id_test_decides_membership (w : World) (project_id : string) :
  Inj (=) (=) uuid4 →
  reachable uuid4 utcnow datetime_of w →
  (project_id ∈ project_ids w →
   test_get_project_by_id uuid4 utcnow datetime_of project_id w = (true, w)) ∧
  (project_id ∉ project_ids w →
   test_get_project_by_id uuid4 utcnow datetime_of project_id w = (false, w)).
Proof.
  intros Hinj Hr.
  pose proof (reachable_consistent uuid4 utcnow datetime_of w Hr) as [[Hp Hs] _].
  pose proof (reachable_unique_ids uuid4 utcnow datetime_of w Hinj Hr) as Hnd.
  unfold test_get_project_by_id. cbn [http]. split.
  - intros Hin. unfold project_ids in Hin.
    apply list_elem_of_omap in Hin as (d & Hd & Hlook).
    pose proof (proj1 (Forall_forall _ _) Hp d Hd) as (oid & p & ->).
    rewrite stored_project_id in Hlook. cbn in Hlook. injection Hlook as <-.
    assert (Hget : get_project uuid4 utcnow datetime_of (Project.id p) w = (Return p, w)).
    { rewrite (get_project_found _ _ _ _ _ _
                 (find_one_unique _ oid p Hp Hnd Hd)).
      apply Project_init_stored. }
    rewrite (respond_Return _ _ _ _ _ Hget). cbn [fst snd]. f_equal.
    unfold judge_get_by_id. cbn [status_code json Nat.eqb mbind option_bind].
    destruct (json_of_project_id p) as (Hid & Hin & [t Ht]).
    rewrite Hin. cbn [mbind option_bind]. rewrite Hid.
    cbn [mbind option_bind is_str]. rewrite bool_decide_eq_true_2 by done.
    by rewrite Ht.
  - intros Hnot. apply (count_matching_zero_ids _ _ Hp) in Hnot.
    rewrite (respond_HTTPException _ _ _ _ _ _
               (get_project_not_found uuid4 utcnow datetime_of project_id w Hnot)).
    reflexivity.
Qed.

(** X19. The create test followed by the delete test: in a consistent
    world, with a generator that never repeats, [test_create_project]
    returns the id of the new project, [test_delete_project] on that id
    returns True, and afterwards the catalog is what it was before the
    two tests. *)
Theorem create_then_delete_tests_pass (w : World) :
  Inj (=) (=) uuid4 →
  consistent uuid4 w →
  ∃ w1 w2,
    test_create_project uuid4 utcnow datetime_of w
    = (Some (VStr (uuid4 (uuid_draws w))), w1) ∧
    test_delete_project uuid4 utcnow datetime_of (uuid4 (uuid_draws w)) w1 = (true, w2) ∧
    projects w2 = projects w ∧
    status_checks w2 = status_checks w.
Proof.
  intros Hinj Hc.
  destruct new_project_valid as (pc & Hv).
  pose proof (POST_projects_valid uuid4 utcnow datetime_of new_project pc w Hv) as Hpost.
  pose proof (fresh_id_unmatched uuid4 w Hinj Hc) as Hfresh.
  set (p := enrich uuid4 utcnow pc w) in *.
  set (w1 := mkWorld
               (projects w ++ [stored_project (oid_draws w) (project_at_millis p)])
               (status_checks w) (S (uuid_draws w)) (S (clock_reads w))
               (S (oid_draws w))) in *.
  assert (Hdel : delete_project (uuid4 (uuid_draws w)) w1
                 = (Return {[ "message" := VStr "Project deleted successfully" ]},
                    set_projects (projects w) w1)).
  { rewrite delete_project_eq. unfold w1 at 1. cbn [projects].
    rewrite delete_one_snoc; [reflexivity|exact Hfresh|].
    rewrite matches_stored_project. by apply bool_decide_eq_true_2. }
  assert (Hget : get_project uuid4 utcnow datetime_of (uuid4 (uuid_draws w))
                   (set_projects (projects w) w1)
                 = (Raise (HTTPException 404 "Project not found"),
                    set_projects (projects w) w1)).
  { by apply get_project_not_found. }
  exists w1, (set_projects (projects w) w1).
  unfold test_create_project, test_delete_project. cbn [http].
  rewrite (respond_Return json_of_project
             (POST_projects uuid4 utcnow datetime_of new_project) w p w1 Hpost).
  cbn [fst snd].
  split.
  { unfold judge_create. cbn [status_code json Nat.eqb].
    cbn [mbind option_bind].
    destruct (json_of_project_id p) as (Hid & Hin & _).
    rewrite Hin. cbn [mbind option_bind]. rewrite Hid. reflexivity. }
  rewrite (respond_Return VDict (delete_project (uuid4 (uuid_draws w))) w1 _ _
             Hdel).
  cbn [fst snd status_code Nat.eqb].
  rewrite (respond_HTTPException json_of_project
             (get_project uuid4 utcnow datetime_of (uuid4 (uuid_draws w))) _ _ _ _ Hget).
  cbn [fst snd status_code]. split; [reflexivity|]. split; reflexivity.
Qed.

(** X20. The test for a missing project depends on its identifier being
    really missing: in a well-formed world
    [test_delete_nonexistent_project] returns True and changes nothing
    when no project of the catalog has the identifier it drew, and
    otherwise returns False after deleting that project. *)
Theorem delete_nonexistent_test (w : World) (fake_id : string) :
  well_formed w →
  (fake_id ∉ project_ids w →
   test_delete_nonexistent_project uuid4 utcnow datetime_of fake_id w = (true, w)) ∧
  (fake_id ∈ project_ids w →
   ∃ w',
     test_delete_nonexistent_project uuid4 utcnow datetime_of fake_id w = (false, w') ∧
     length (projects w) = S (length (projects w'))).
Proof.
  intros [Hp _]. unfold test_delete_nonexistent_project. cbn [http].
  destruct (delete_project_cases fake_id w) as [[Hz Hdel]|[Hnz [w' Hdel]]].
  - rewrite (respond_HTTPException _ _ _ _ _ _ Hdel). cbn [fst snd].
    split; [reflexivity|]. intros Hin.
    by apply (count_matching_zero_ids _ _ Hp) in Hz.
  - rewrite (respond_Return _ _ _ _ _ Hdel). cbn [fst snd].
    split.
    + intros Hnot. by apply (count_matching_zero_ids _ _ Hp) in Hnot.
    + intros _. exists w'. split; [reflexivity|].
      rewrite delete_project_eq in Hdel.
      pose proof (delete_one_length _ _ Hnz) as Hlen.
      destruct (Collection.delete_one _ _) as [docs n]. cbn [fst] in Hlen.
      injection Hdel as _ <-. exact Hlen.
Qed.

End Tests.

(** ** The properties above on the example worlds *)

Lemma example_world_reachable : reachable uuid_of clock_of epoch_of example_world.
Proof.
  unfold example_world.
  rewrite <- (snd_answer (POST_projects uuid_of clock_of epoch_of (VDict example_body))).
  exact (reachable_serve uuid_of clock_of epoch_of (Post_projects (VDict example_body))
           empty_world (reachable_empty uuid_of clock_of epoch_of)).
Qed.

Lemma example_world_status_checks : status_checks example_world = [].
Proof.
  unfold example_world.
  by rewrite (POST_projects_valid _ _ _ _ _ empty_world example_body_valid).
Qed.

Lemma example_project_stored :
  stored_project 0 example_project ∈ projects example_world.
Proof. rewrite example_world_projects. apply list_elem_of_here. Qed.

Lemma example_project_id : Project.id example_project = "uuid-0".
Proof. reflexivity. Qed.

Lemma example_world_ids : project_ids example_world = ["uuid-0"].
Proof.
  unfold project_ids. rewrite example_world_projects.
  cbn [omap list_omap]. by rewrite stored_project_id.
Qed.

Lemma full_world_consistent : consistent uuid_of full_world.
Proof.
  split; [split|].
  - apply Forall_replicate. by eexists _, _.
  - constructor.
  - intros d s Hd Hlook. cbn [projects full_world] in Hd.
    apply elem_of_replicate in Hd as [-> _].
    rewrite stored_project_id in Hlook. injection Hlook as <-.
    exists 0. split; [cbn; lia|reflexivity].
Qed.

Lemma clock_of_mono (m n : nat) : (m ≤ n)%nat → (clock_of m ≤ clock_of n)%Z.
Proof. unfold clock_of. lia. Qed.

Lemma get_routes_never_write_example :
  projects (snd (serve uuid_of clock_of epoch_of Get_projects broken_world))
  = projects broken_world ∧
  status_checks (snd (serve uuid_of clock_of epoch_of Get_projects broken_world))
  = status_checks broken_world.
Proof.
  exact (get_routes_never_write uuid_of clock_of epoch_of Get_projects broken_world
           eq_refl).
Defined.

Lemma create_status_check_example :
  ∃ s w',
    POST_status uuid_of clock_of epoch_of (VDict example_status_body) empty_world
    = (Return s, w') ∧
    StatusCheck.client_name s = "test-client" ∧
    StatusCheck.id s = "uuid-0".
Proof.
  destruct (create_status_check_enriches uuid_of clock_of epoch_of example_status_body
              "test-client" empty_world eq_refl)
    as (s & w' & Hrun & Hid & Hname & _).
  exists s, w'. split; [exact Hrun|]. split; [exact Hname|exact Hid].
Defined.

Lemma status_world_well_formed : well_formed status_world.
Proof.
  apply (consistent_POST_status uuid_of clock_of epoch_of).
  exact example_world_consistent.
Qed.

Lemma status_world_counts :
  length (status_checks status_world) = 1 ∧ clock_reads status_world = 2.
Proof.
  destruct example_world_counters as (_ & Hk & _).
  unfold status_world.
  rewrite (POST_status_valid uuid_of clock_of epoch_of example_status_body
             "test-client" example_world eq_refl).
  cbn [snd status_checks clock_reads].
  by rewrite example_world_status_checks, Hk.
Qed.

Lemma two_projects_world_reachable :
  reachable uuid_of slow_clock_of epoch_of two_projects_world.
Proof.
  unfold two_projects_world.
  rewrite <- !(snd_answer (POST_projects uuid_of slow_clock_of epoch_of _)).
  apply (reachable_serve uuid_of slow_clock_of epoch_of
           (Post_projects new_project)).
  apply (reachable_serve uuid_of slow_clock_of epoch_of
           (Post_projects (VDict example_body))).
  apply reachable_empty.
Qed.

Lemma two_projects_world_ids :
  project_ids two_projects_world = ["uuid-0"; "uuid-1"].
Proof. vm_compute. reflexivity. Qed.

Lemma two_projects_world_dates :
  created_dates two_projects_world = [1700000000000000; 1700000000001000]%Z.
Proof. vm_compute. reflexivity. Qed.

Lemma slow_clock_of_mono (m n : nat) :
  (m ≤ n)%nat → (slow_clock_of m ≤ slow_clock_of n)%Z.
Proof. unfold slow_clock_of. lia. Qed.

(** A second status check, posted when one is stored. *)
Lemma created_status_check_is_listed_example :
  ∃ s w' ss,
    POST_status uuid_of clock_of epoch_of (VDict example_status_body)
      status_world
    = (Return s, w') ∧
    get_status_checks uuid_of clock_of epoch_of status_world
    = (Return ss, status_world) ∧
    length ss = 1 ∧
    get_status_checks uuid_of clock_of epoch_of w'
    = (Return (ss ++ [status_at_millis s]), w') ∧
    StatusCheck.timestamp (status_at_millis s) = 1700000000000000%Z.
Proof.
  destruct status_world_counts as [Hlen Hk].
  destruct (created_status_check_is_listed uuid_of clock_of epoch_of
              example_status_body "test-client" status_world
              status_world_well_formed)
    as (s & w' & ss & Hrun & Hget & Hss & Hget' & _ & _ & Htime).
  - rewrite Hlen. lia.
  - reflexivity.
  - exists s, w', ss. rewrite Hlen in Hss. rewrite Hk in Htime.
    split; [exact Hrun|]. split; [exact Hget|]. split; [exact Hss|].
    split; [exact Hget'|exact Htime].
Defined.

Lemma created_project_is_listed_example :
  ∃ p w' ps,
    POST_projects uuid_of clock_of epoch_of (VDict example_body) example_world
    = (Return p, w') ∧
    get_projects uuid_of clock_of epoch_of example_world
    = (Return ps, example_world) ∧
    length ps = 1 ∧
    get_projects uuid_of clock_of epoch_of w'
    = (Return (ps ++ [project_at_millis p]), w') ∧
    Project.created_date (project_at_millis p) = 1700000000000000%Z.
Proof.
  destruct example_world_counters as (_ & Hk & _).
  destruct (created_project_is_listed uuid_of clock_of epoch_of
              (VDict example_body) example_create example_world
              (proj1 example_world_consistent))
    as (p & w' & ps & Hrun & Hget & Hps & Hget' & _ & _ & Hdate).
  - rewrite example_world_projects. cbn [length]. lia.
  - exact example_body_valid.
  - exists p, w', ps. rewrite example_world_projects in Hps.
    rewrite Hk in Hdate.
    split; [exact Hrun|]. split; [exact Hget|]. split; [exact Hps|].
    split; [exact Hget'|exact Hdate].
Defined.

Lemma created_project_beyond_cap_example :
  ∃ p w' ps,
    POST_projects uuid_of clock_of epoch_of (VDict example_body) full_world
    = (Return p, w') ∧
    get_project uuid_of clock_of epoch_of (Project.id p) w'
    = (Return (project_at_millis p), w') ∧
    length (projects w') = 1001 ∧
    get_projects uuid_of clock_of epoch_of full_world = (Return ps, full_world) ∧
    get_projects uuid_of clock_of epoch_of w' = (Return ps, w') ∧
    length ps = 1000.
Proof.
  destruct (created_project_beyond_cap_is_not_listed uuid_of clock_of epoch_of
              (VDict example_body) example_create full_world uuid_of_inj
              full_world_consistent)
    as (p & w' & ps & Hrun & Hget & Hlen & Hl & Hl' & Hps).
  - cbn [projects full_world]. by rewrite length_replicate.
  - exact example_body_valid.
  - exists p, w', ps. cbn [projects full_world] in Hlen.
    rewrite length_replicate in Hlen.
    split; [exact Hrun|]. split; [exact Hget|]. split; [exact Hlen|].
    split; [exact Hl|]. split; [exact Hl'|exact Hps].
Defined.

(** The catalog after two create requests. *)
Lemma catalog_ids_are_unique_example :
  project_ids two_projects_world = ["uuid-0"; "uuid-1"] ∧
  NoDup (project_ids two_projects_world) ∧
  length (projects two_projects_world) = 2.
Proof.
  destruct (catalog_ids_are_unique uuid_of slow_clock_of epoch_of
              two_projects_world uuid_of_inj two_projects_world_reachable)
    as (_ & Hnd & Hlen).
  split; [exact two_projects_world_ids|]. split; [exact Hnd|].
  rewrite <- Hlen, two_projects_world_ids. reflexivity.
Defined.

Lemma stored_project_is_fetched_example :
  get_project uuid_of clock_of epoch_of (Project.id example_project) example_world
  = (Return example_project, example_world).
Proof.
  exact (stored_project_is_fetched_by_id uuid_of clock_of epoch_of example_world 0
           example_project uuid_of_inj example_world_reachable
           example_project_stored).
Defined.

Lemma delete_in_reachable_world_example :
  ∃ w',
    delete_project "uuid-0" example_world
    = (Return {[ "message" := VStr "Project deleted successfully" ]}, w') ∧
    delete_project "uuid-0" w'
    = (Raise (HTTPException 404 "Project not found"), w').
Proof.
  destruct (proj1 (delete_project_in_reachable_world uuid_of clock_of epoch_of
                     example_world "uuid-0" uuid_of_inj
                     example_world_reachable))
    as (w' & Hdel & _ & _ & _ & Hagain).
  - rewrite example_world_ids. apply list_elem_of_here.
  - exists w'. split; [exact Hdel|exact Hagain].
Defined.

(** Of the two projects of the catalog, [uuid-0] is deleted and [uuid-1]
    is fetched. *)
Lemma delete_leaves_other_projects_example :
  project_ids two_projects_world = ["uuid-0"; "uuid-1"] ∧
  project_ids (snd (delete_project "uuid-0" two_projects_world)) = ["uuid-1"] ∧
  status_of (fst (get_project uuid_of slow_clock_of epoch_of "uuid-1"
                    two_projects_world)) = 200 ∧
  fst (get_project uuid_of slow_clock_of epoch_of "uuid-1"
         (snd (delete_project "uuid-0" two_projects_world)))
  = fst (get_project uuid_of slow_clock_of epoch_of "uuid-1" two_projects_world).
Proof.
  split; [exact two_projects_world_ids|].
  split; [vm_compute; reflexivity|].
  split; [vm_compute; reflexivity|].
  apply (delete_leaves_other_projects uuid_of slow_clock_of epoch_of
           two_projects_world "uuid-0" "uuid-1").
  - exact (proj1 (reachable_consistent uuid_of slow_clock_of epoch_of
                    two_projects_world two_projects_world_reachable)).
  - discriminate.
Defined.

Lemma malformed_document_example :
  ∃ w',
    get_projects uuid_of clock_of epoch_of broken_world = (Raise ValidationError, w') ∧
    fst (serve uuid_of clock_of epoch_of Get_projects broken_world) = 500 ∧
    projects w' = projects broken_world ∧
    status_checks w' = status_checks broken_world.
Proof.
  apply (malformed_document_breaks_listing uuid_of clock_of epoch_of broken_world ∅
           "title").
  - apply list_elem_of_here.
  - apply list_elem_of_here.
  - apply lookup_empty.
Defined.

Lemma write_routes_example :
  fst (serve uuid_of clock_of epoch_of (Delete_project "uuid-1") example_world)
  ∈ [200; 404].
Proof.
  exact (proj1 (write_routes_never_answer_500 uuid_of clock_of epoch_of
                  (Delete_project "uuid-1") example_world eq_refl)).
Defined.

Lemma reachable_world_example :
  fst (serve uuid_of clock_of epoch_of (Get_project "uuid-0") example_world)
  ∈ [200; 404].
Proof.
  exact (proj1 (reachable_world_never_answers_500 uuid_of clock_of epoch_of
                  (Get_project "uuid-0") example_world
                  example_world_reachable)).
Defined.

Lemma seeded_projects_example :
  ∃ r w',
    create_sample_projects uuid_of clock_of epoch_of example_world
    = (Return r, w') ∧
    length (seeded_projects r) = 6 ∧
    NoDup (Project.id <$> seeded_projects r) ∧
    ∀ p, p ∈ seeded_projects r →
         get_project uuid_of clock_of epoch_of (Project.id p) w'
         = (Return (project_at_millis p), w').
Proof.
  exact (seeded_projects_are_fetched_by_id uuid_of clock_of epoch_of
           example_world uuid_of_inj).
Defined.

(** Two projects created a millisecond and a half apart. *)
Lemma created_dates_example :
  created_dates two_projects_world = [1700000000000000; 1700000000001000]%Z ∧
  StronglySorted Z.le (created_dates two_projects_world) ∧
  length (created_dates two_projects_world)
  = length (projects two_projects_world).
Proof.
  split; [exact two_projects_world_dates|].
  exact (created_dates_follow_insertion_order uuid_of slow_clock_of epoch_of
           two_projects_world slow_clock_of_mono two_projects_world_reachable).
Defined.

Lemma get_by_id_test_example :
  test_get_project_by_id uuid_of clock_of epoch_of "uuid-0" example_world
  = (true, example_world) ∧
  test_get_project_by_id uuid_of clock_of epoch_of "uuid-1" example_world
  = (false, example_world).
Proof.
  split.
  - apply (proj1 (get_by_id_test_decides_membership uuid_of clock_of epoch_of
                    example_world "uuid-0" uuid_of_inj
                    example_world_reachable)).
    rewrite example_world_ids. apply list_elem_of_here.
  - apply (proj2 (get_by_id_test_decides_membership uuid_of clock_of epoch_of
                    example_world "uuid-1" uuid_of_inj
                    example_world_reachable)).
    rewrite example_world_ids. intros H.
    apply list_elem_of_singleton in H. discriminate H.
Defined.

Lemma create_then_delete_tests_example :
  ∃ w1 w2,
    test_create_project uuid_of clock_of epoch_of example_world
    = (Some (VStr (uuid_of (uuid_draws example_world))), w1) ∧
    test_delete_project uuid_of clock_of epoch_of
      (uuid_of (uuid_draws example_world)) w1 = (true, w2) ∧
    projects w2 = projects example_world ∧
    status_checks w2 = status_checks example_world.
Proof.
  exact (create_then_delete_tests_pass uuid_of clock_of epoch_of example_world
           uuid_of_inj example_world_consistent).
Defined.

Lemma delete_nonexistent_test_example :
  test_delete_nonexistent_project uuid_of clock_of epoch_of "uuid-1" example_world
  = (true, example_world).
Proof.
  apply (proj1 (delete_nonexistent_test uuid_of clock_of epoch_of example_world
                  "uuid-1" (proj1 example_world_consistent))).
  rewrite example_world_ids. intros H.
  apply list_elem_of_singleton in H. discriminate H.
Defined.
